(** * Idea tracker: the tool handlers of [idea-bot.js] over the table of [schema.sql]

    The development embeds
    - the JavaScript fragments the handlers rely on (truthiness, [||],
      the shape handed to [JSON.stringify]),
    - the SQL statements the handlers send (one INSERT, one dynamically
      built SELECT, one SELECT with ORDER BY) over the column definitions
      of [schema.sql],
    - the request handler registered for [CallToolRequestSchema] and the
      helper [generateDashboard],
    and then settles the properties of the specification on them.

    Conventions.  Tool arguments are taken at the JSON types the tools'
    input schemas declare (strings, integer numbers), each key possibly
    absent.  Characters are [ascii]; one [ascii] stands for one character
    of the text.  The database file opens and holds the table.  The
    engine's size limits are left out: row identifiers are unbounded
    integers and a LIKE pattern may have any length.  The quotient
    computed by [generateDashboard] is kept exact (no rounding to a
    double). *)

From Stdlib Require Import ZArith List String Ascii Bool Lia Permutation Sorted.
Import ListNotations.

Set Warnings "-register-all".

#[local] Open Scope string_scope.
#[local] Open Scope Z_scope.

(** ** JavaScript values *)

Module Js.

(** Numbers the handlers can produce: integers, the exact quotient of a
    division that does not come out even, and the non-finite results of
    a division by zero. *)
Inductive number :=
| Int (n : Z)
| Quot (num : Z) (den : Z)
| NaN
| PosInfinity
| NegInfinity.

(** [a / b] on integer operands. *)
Definition div (a b : Z) : number :=
  if b =? 0 then
    if a =? 0 then NaN else if 0 <? a then PosInfinity else NegInfinity
  else if a mod b =? 0 then Int (a / b) else Quot a b.

Definition is_finite (x : number) : bool :=
  match x with
  | Int _ | Quot _ _ => true
  | NaN | PosInfinity | NegInfinity => false
  end.

(** The values handed to [JSON.stringify]. *)
Inductive json :=
| JUndefined
| JNull
| JNum (x : number)
| JStr (s : string)
| JArr (items : list json)
| JObj (members : list (string * json)).

Definition of_Z (n : Z) : json := JNum (Int n).

(** A key that may be absent: [undefined] when it is. *)
Definition of_option_string (o : option string) : json :=
  match o with
  | Some s => JStr s
  | None => JUndefined
  end.

(** What a reader of the text [JSON.stringify(j, null, 2)] parses back:
    a member whose value is [undefined] is left out, an [undefined]
    array item and a non-finite number are written [null]. *)
Fixpoint stringify (j : json) : json :=
  match j with
  | JUndefined => JUndefined
  | JNull => JNull
  | JNum x => if is_finite x then JNum x else JNull
  | JStr s => JStr s
  | JArr items =>
      JArr (map (fun i => match stringify i with
                          | JUndefined => JNull
                          | i' => i'
                          end) items)
  | JObj members =>
      JObj ((fix members_of (ms : list (string * json)) :=
               match ms with
               | [] => []
               | (k, v) :: ms' =>
                   match stringify v with
                   | JUndefined => members_of ms'
                   | v' => (k, v') :: members_of ms'
                   end
               end) members)
  end.

(** Member access on a parsed value: [None] when the key is missing. *)
Fixpoint assoc (k : string) (ms : list (string * json)) : option json :=
  match ms with
  | [] => None
  | (k', v) :: ms' => if String.eqb k k' then Some v else assoc k ms'
  end.

Definition field (k : string) (j : json) : option json :=
  match j with
  | JObj ms => assoc k ms
  | _ => None
  end.

(** Truthiness of a possibly absent string: [undefined] and the empty
    string are falsy. *)
Definition truthy_string (o : option string) : bool :=
  match o with
  | Some s => negb (String.eqb s EmptyString)
  | None => false
  end.

(** Truthiness of a possibly absent integer number: [undefined] and [0]
    are falsy. *)
Definition truthy_number (o : option Z) : bool :=
  match o with
  | Some n => negb (n =? 0)
  | None => false
  end.

(** [o || d] on a possibly absent string. *)
Definition string_or (o : option string) (d : string) : string :=
  match o with
  | Some s => if truthy_string o then s else d
  | None => d
  end.

(** [o || d] on a possibly absent number. *)
Definition number_or (o : option Z) (d : Z) : Z :=
  match o with
  | Some n => if truthy_number o then n else d
  | None => d
  end.

(** [${o}] inside a template literal. *)
Definition interpolate (o : option string) : string :=
  match o with
  | Some s => s
  | None => "undefined"
  end.

End Js.

(** ** The SQL engine, as far as the three statements need it *)

Module Sql.

(** *** LIKE *)

Definition is_upper (c : ascii) : bool :=
  let n := nat_of_ascii c in (65 <=? n)%nat && (n <=? 90)%nat.

(** The engine folds the 26 ASCII capitals only. *)
Definition to_lower (c : ascii) : ascii :=
  if is_upper c then ascii_of_nat (nat_of_ascii c + 32) else c.

Definition percent : ascii := ascii_of_nat 37.
Definition underscore : ascii := ascii_of_nat 95.

(** [like p s] is [s LIKE p] without ESCAPE: [%] stands for any run of
    characters, [_] for any one character, every other character for
    itself up to ASCII case. *)
Fixpoint like (p s : string) : bool :=
  match p with
  | EmptyString =>
      match s with
      | EmptyString => true
      | String _ _ => false
      end
  | String c p' =>
      if Ascii.eqb c percent then
        (fix any_run (t : string) : bool :=
           like p' t
           || match t with
              | EmptyString => false
              | String _ t' => any_run t'
              end) s
      else
        match s with
        | EmptyString => false
        | String d s' =>
            (Ascii.eqb c underscore || Ascii.eqb (to_lower c) (to_lower d))
            && like p' s'
        end
  end.

(** [x BETWEEN lo AND hi]. *)
Definition between (lo hi x : Z) : bool := (lo <=? x) && (x <=? hi).

(** [x IN (...)] over text, binary collation. *)
Definition in_list (x : string) (l : list string) : bool :=
  existsb (String.eqb x) l.

(** *** Constraint failures *)

Inductive error :=
| NotNullFailed (column : string)
| CheckFailed (column : string).

(** The message the driver attaches to the thrown [Error]. *)
Definition message (table : string) (e : error) : string :=
  match e with
  | NotNullFailed c =>
      "SQLITE_CONSTRAINT: NOT NULL constraint failed: " ++ table ++ "." ++ c
  | CheckFailed c =>
      "SQLITE_CONSTRAINT: CHECK constraint failed: " ++ c
  end.

Inductive outcome (A : Type) :=
| Done (a : A)
| Thrown (e : error).
Arguments Done {A} a.
Arguments Thrown {A} e.

Definition bind {A B} (o : outcome A) (k : A -> outcome B) : outcome B :=
  match o with
  | Done a => k a
  | Thrown e => Thrown e
  end.

Definition check (ok : bool) (column : string) : outcome unit :=
  if ok then Done tt else Thrown (CheckFailed column).

Definition not_null {A} (v : option A) (column : string) : outcome A :=
  match v with
  | Some a => Done a
  | None => Thrown (NotNullFailed column)
  end.

End Sql.

Notation "x <- c1 ;; c2" := (Sql.bind c1 (fun x => c2))
  (at level 61, c1 at next level, right associativity).
Notation "c1 ;;; c2" := (Sql.bind c1 (fun _ => c2))
  (at level 61, right associativity).

(** ** The table *)

Module Store.

(** Modelled from the spec: the declaration of the table [idea_store] that
    the handlers address is missing from the source; [schema.sql] declares
    the columns below under the name [projects], and the specification's
    data model gives the stored record exactly these columns, so the
    column definitions of [schema.sql] are taken for [idea_store]. *)
Record row := {
  id : Z;
  project_name : string;
  category : string;
  priority_level : Z;
  size_score : Z;
  business_impact : Z;
  resource_type : Z;
  risk_level : Z;
  total_score : Z;
  project_tier : Z;
  project_phase : string;
  notes : string;
  created_at : string;
  updated_at : string
}.

(** The table in rowid order, and the counter AUTOINCREMENT keeps. *)
Record database := {
  idea_store : list row;
  sqlite_sequence : Z
}.

Definition empty : database :=
  {| idea_store := []; sqlite_sequence := 0 |}.

Definition table_name : string := "idea_store".

Definition phases : list string :=
  ["Planning"; "In Progress"; "On Hold"; "Completed"].

(** [total_score INTEGER GENERATED ALWAYS AS (...) STORED]. *)
Definition generated_total_score (p s b r k : Z) : Z :=
  p + s + b + r + k.

(** [project_tier INTEGER GENERATED ALWAYS AS (CASE ... END) STORED]. *)
Definition generated_project_tier (p s b r k : Z) : Z :=
  if 16 <=? p + s + b + r + k then 1
  else if 11 <=? p + s + b + r + k then 2
  else 3.

(** The nine values bound to the INSERT; [None] is a parameter bound to
    [undefined], which the driver leaves NULL. *)
Record bound := {
  b_project_name : option string;
  b_category : option string;
  b_priority_level : Z;
  b_size_score : Z;
  b_business_impact : Z;
  b_resource_type : Z;
  b_risk_level : Z;
  b_project_phase : string;
  b_notes : string
}.

Definition max_rowid (rows : list row) : Z :=
  fold_right (fun r m => Z.max (id r) m) 0 rows.

(** AUTOINCREMENT: one more than the largest rowid ever in the table. *)
Definition next_rowid (db : database) : Z :=
  Z.max (max_rowid (idea_store db)) (sqlite_sequence db) + 1.

(** [INSERT INTO idea_store (project_name, ..., notes) VALUES (?, ..., ?)]:
    the NOT NULL and CHECK constraints of the columns, then the new row
    with its generated columns and both timestamps at CURRENT_TIMESTAMP. *)
Definition insert (now : string) (v : bound) (db : database)
  : Sql.outcome database :=
  name <- Sql.not_null (b_project_name v) "project_name" ;;
  cat <- Sql.not_null (b_category v) "category" ;;
  Sql.check (Sql.between 1 4 (b_priority_level v)) "priority_level" ;;;
  Sql.check (Sql.between 1 3 (b_size_score v)) "size_score" ;;;
  Sql.check (Sql.between 1 4 (b_business_impact v)) "business_impact" ;;;
  Sql.check (Sql.between 1 3 (b_resource_type v)) "resource_type" ;;;
  Sql.check (Sql.between 1 3 (b_risk_level v)) "risk_level" ;;;
  Sql.check (Sql.in_list (b_project_phase v) phases) "project_phase" ;;;
  let rowid := next_rowid db in
  Sql.Done
    {| idea_store :=
         idea_store db ++
         [ {| id := rowid;
              project_name := name;
              category := cat;
              priority_level := b_priority_level v;
              size_score := b_size_score v;
              business_impact := b_business_impact v;
              resource_type := b_resource_type v;
              risk_level := b_risk_level v;
              total_score :=
                generated_total_score (b_priority_level v) (b_size_score v)
                  (b_business_impact v) (b_resource_type v) (b_risk_level v);
              project_tier :=
                generated_project_tier (b_priority_level v) (b_size_score v)
                  (b_business_impact v) (b_resource_type v) (b_risk_level v);
              project_phase := b_project_phase v;
              notes := b_notes v;
              created_at := now;
              updated_at := now |} ];
       sqlite_sequence := rowid |}.

(** One [AND ...] term of the SELECT with its bound parameter. *)
Inductive condition :=
| ProjectNameLike (pattern : string)
| CategoryEq (c : string)
| ProjectTierEq (t : Z)
| ProjectPhaseEq (p : string).

Definition holds (r : row) (c : condition) : bool :=
  match c with
  | ProjectNameLike p => Sql.like p (project_name r)
  | CategoryEq c => String.eqb (category r) c
  | ProjectTierEq t => project_tier r =? t
  | ProjectPhaseEq p => String.eqb (project_phase r) p
  end.

(** [SELECT * FROM idea_store WHERE 1=1 AND ... AND ...]. *)
Definition select_where (conds : list condition) (db : database) : list row :=
  filter (fun r => forallb (holds r) conds) (idea_store db).

(** Insertion of [x] in front of the first row it may precede. *)
Fixpoint place (before : row -> row -> bool) (x : row) (l : list row)
  : list row :=
  match l with
  | [] => [x]
  | y :: l' => if before x y then x :: l else y :: place before x l'
  end.

(** A sort that keeps rows tied under [before] in their given order. *)
Definition sort_by (before : row -> row -> bool) (l : list row) : list row :=
  fold_right (place before) [] l.

(** [ORDER BY priority_level DESC, total_score DESC]: may [a] stand
    before [b]. *)
Definition artifact_order (a b : row) : bool :=
  (priority_level b <? priority_level a)
  || ((priority_level a =? priority_level b)
      && (total_score b <=? total_score a)).

(** [SELECT * FROM idea_store ORDER BY priority_level DESC, total_score DESC].
    SQL leaves the order of rows tied on both keys open; here they keep
    their rowid order. *)
Definition select_ordered (db : database) : list row :=
  sort_by artifact_order (idea_store db).

End Store.

(** ** The tool handlers of [idea-bot.js] *)

Module Args.

(** [request.params.arguments]: every key any branch of the handler
    reads; [None] is an absent key.  [arguments: args = {}] makes a
    missing bag the bag [none]. *)
Record t := {
  project_name : option string;
  category : option string;
  priority_level : option Z;
  size_score : option Z;
  business_impact : option Z;
  resource_type : option Z;
  risk_level : option Z;
  project_phase : option string;
  notes : option string;
  project_tier : option Z;
  view_type : option string
}.

Definition none : t :=
  {| project_name := None; category := None; priority_level := None;
     size_score := None; business_impact := None; resource_type := None;
     risk_level := None; project_phase := None; notes := None;
     project_tier := None; view_type := None |}.

(** The bag [args] with one key replaced. *)
Definition with_project_name (v : option string) (args : t) : t :=
  {| project_name := v; category := category args;
     priority_level := priority_level args; size_score := size_score args;
     business_impact := business_impact args;
     resource_type := resource_type args; risk_level := risk_level args;
     project_phase := project_phase args; notes := notes args;
     project_tier := project_tier args; view_type := view_type args |}.

Definition with_category (v : option string) (args : t) : t :=
  {| project_name := project_name args; category := v;
     priority_level := priority_level args; size_score := size_score args;
     business_impact := business_impact args;
     resource_type := resource_type args; risk_level := risk_level args;
     project_phase := project_phase args; notes := notes args;
     project_tier := project_tier args; view_type := view_type args |}.

Definition with_priority_level (v : option Z) (args : t) : t :=
  {| project_name := project_name args; category := category args;
     priority_level := v; size_score := size_score args;
     business_impact := business_impact args;
     resource_type := resource_type args; risk_level := risk_level args;
     project_phase := project_phase args; notes := notes args;
     project_tier := project_tier args; view_type := view_type args |}.

Definition with_project_phase (v : option string) (args : t) : t :=
  {| project_name := project_name args; category := category args;
     priority_level := priority_level args; size_score := size_score args;
     business_impact := business_impact args;
     resource_type := resource_type args; risk_level := risk_level args;
     project_phase := v; notes := notes args;
     project_tier := project_tier args; view_type := view_type args |}.

Definition with_project_tier (v : option Z) (args : t) : t :=
  {| project_name := project_name args; category := category args;
     priority_level := priority_level args; size_score := size_score args;
     business_impact := business_impact args;
     resource_type := resource_type args; risk_level := risk_level args;
     project_phase := project_phase args; notes := notes args;
     project_tier := v; view_type := view_type args |}.

Definition with_view_type (v : option string) (args : t) : t :=
  {| project_name := project_name args; category := category args;
     priority_level := priority_level args; size_score := size_score args;
     business_impact := business_impact args;
     resource_type := resource_type args; risk_level := risk_level args;
     project_phase := project_phase args; notes := notes args;
     project_tier := project_tier args; view_type := v |}.

End Args.

Module IdeaBot.

Import Js.

Record request := {
  name : string;
  arguments : Args.t
}.

(** The text of the single content item: plain, or
    [JSON.stringify(j, null, 2)] given by what it parses back to. *)
Inductive text :=
| Plain (s : string)
| Stringified (j : json).

Definition JSON_stringify (j : json) : text := Stringified (stringify j).

Record response := {
  content : text;
  isError : bool
}.

Definition quote : string := String (ascii_of_nat 34) EmptyString.

(** A row as the driver hands it back: one member per column, in column
    order. *)
Definition row_object (r : Store.row) : json :=
  JObj [ ("id", of_Z (Store.id r));
         ("project_name", JStr (Store.project_name r));
         ("category", JStr (Store.category r));
         ("priority_level", of_Z (Store.priority_level r));
         ("size_score", of_Z (Store.size_score r));
         ("business_impact", of_Z (Store.business_impact r));
         ("resource_type", of_Z (Store.resource_type r));
         ("risk_level", of_Z (Store.risk_level r));
         ("total_score", of_Z (Store.total_score r));
         ("project_tier", of_Z (Store.project_tier r));
         ("project_phase", JStr (Store.project_phase r));
         ("notes", JStr (Store.notes r));
         ("created_at", JStr (Store.created_at r));
         ("updated_at", JStr (Store.updated_at r)) ].

(** The parameter array of the INSERT. *)
Definition add_params (args : Args.t) : Store.bound :=
  {| Store.b_project_name := Args.project_name args;
     Store.b_category := Args.category args;
     Store.b_priority_level := number_or (Args.priority_level args) 1;
     Store.b_size_score := number_or (Args.size_score args) 1;
     Store.b_business_impact := number_or (Args.business_impact args) 1;
     Store.b_resource_type := number_or (Args.resource_type args) 1;
     Store.b_risk_level := number_or (Args.risk_level args) 1;
     Store.b_project_phase := string_or (Args.project_phase args) "Planning";
     Store.b_notes := string_or (Args.notes args) EmptyString |}.

(** The conditions [idea_bot_get] appends to [WHERE 1=1], in the order it
    appends them. *)
Definition get_conditions (args : Args.t) : list Store.condition :=
  (if truthy_string (Args.project_name args)
   then [Store.ProjectNameLike
           ("%" ++ interpolate (Args.project_name args) ++ "%")]
   else [])
  ++ (match Args.category args with
      | Some c => if truthy_string (Some c) then [Store.CategoryEq c] else []
      | None => []
      end)
  ++ (match Args.project_tier args with
      | Some t => if truthy_number (Some t) then [Store.ProjectTierEq t] else []
      | None => []
      end)
  ++ (match Args.project_phase args with
      | Some p => if truthy_string (Some p) then [Store.ProjectPhaseEq p] else []
      | None => []
      end).

Definition visualization_instructions (args : Args.t) : json :=
  JObj [ ("type", of_option_string (Args.view_type args));
         ("style", JStr "futuristic-neon");
         ("elements",
           JArr [ JStr "hexagonal-grid";
                  JStr "priority-matrix";
                  JStr "pipeline-view";
                  JStr "risk-heatmap";
                  JStr "resource-allocation" ]) ].

(** The [catch] branch: the thrown error becomes an error result and the
    failed statement leaves the table as it was. *)
Definition caught (db : Store.database) (e : Sql.error)
  : Store.database * response :=
  (db, {| content := Plain ("Error: " ++ Sql.message Store.table_name e);
          isError := true |}).

(** The handler registered for [CallToolRequestSchema]; [now] is the
    engine's CURRENT_TIMESTAMP at the call. *)
Definition CallTool (now : string) (request : request) (db : Store.database)
  : Store.database * response :=
  let args := arguments request in
  if String.eqb (name request) "idea_bot_add" then
    match Store.insert now (add_params args) db with
    | Sql.Done db' =>
        (db', {| content :=
                   Plain ("Added project " ++ quote
                          ++ interpolate (Args.project_name args)
                          ++ quote ++ " to database");
                 isError := false |})
    | Sql.Thrown e => caught db e
    end
  else if String.eqb (name request) "idea_bot_get" then
    let ideas := Store.select_where (get_conditions args) db in
    (db, {| content := JSON_stringify (JArr (map row_object ideas));
            isError := false |})
  else if String.eqb (name request) "idea_artifact" then
    let ideas := Store.select_ordered db in
    (db, {| content :=
              JSON_stringify
                (JObj [ ("data", JArr (map row_object ideas));
                        ("visualization_instructions",
                          visualization_instructions args) ]);
            isError := false |})
  else
    (db, {| content := Plain ("Unknown tool: " ++ name request);
            isError := true |}).

(** *** [generateDashboard] *)

(** [acc[k]] and [acc[k] = v] on an object used as a counter table. *)
Fixpoint get (k : string) (acc : list (string * Z)) : option Z :=
  match acc with
  | [] => None
  | (k', n) :: acc' => if String.eqb k k' then Some n else get k acc'
  end.

Fixpoint set (k : string) (v : Z) (acc : list (string * Z))
  : list (string * Z) :=
  match acc with
  | [] => [(k, v)]
  | (k', n) :: acc' =>
      if String.eqb k k' then (k', v) :: acc' else (k', n) :: set k v acc'
  end.

(** [ideas.reduce((acc, p) => { acc[key(p)] = (acc[key(p)] || 0) + 1;
    return acc; }, {})]. *)
Definition tally (key : Store.row -> string) (ideas : list Store.row)
  : list (string * Z) :=
  fold_left
    (fun acc p => set (key p) (number_or (get (key p) acc) 0 + 1) acc)
    ideas [].

Definition counters (acc : list (string * Z)) : json :=
  JObj (map (fun kv => (fst kv, of_Z (snd kv))) acc).

(** [ideas.filter(pred).length]. *)
Definition count (pred : Store.row -> bool) (ideas : list Store.row) : Z :=
  Z.of_nat (List.length (filter pred ideas)).

(** The comparator [(a, b) => b.total_score - a.total_score] leaves [a]
    before [b] unless it is positive. *)
Definition by_score (a b : Store.row) : bool :=
  Store.total_score b - Store.total_score a <=? 0.

Definition priority_project (p : Store.row) : json :=
  JObj [ ("name", JStr (Store.project_name p));
         ("score", of_Z (Store.total_score p));
         ("category", JStr (Store.category p));
         ("phase", JStr (Store.project_phase p));
         ("impact", of_Z (Store.business_impact p));
         ("risk", of_Z (Store.risk_level p)) ].

(** The object [generateDashboard] serialises; [viewType] is not read. *)
Definition dashboard (ideas : list Store.row) : json :=
  JObj
    [ ("summary",
        JObj [ ("total_count", of_Z (Z.of_nat (List.length ideas)));
               ("high_priority_count",
                 of_Z (count (fun p => 3 <=? Store.priority_level p) ideas));
               ("average_score",
                 JNum (div (fold_left (fun sum p => sum + Store.total_score p)
                                      ideas 0)
                           (Z.of_nat (List.length ideas)))) ]);
      ("categories", counters (tally Store.category ideas));
      ("phases", counters (tally Store.project_phase ideas));
      ("priority_projects",
        JArr (map priority_project
                (Store.sort_by by_score
                   (filter (fun p => 3 <=? Store.priority_level p) ideas))));
      ("risk_levels",
        JObj [ ("high", of_Z (count (fun p => Store.risk_level p =? 3) ideas));
               ("medium", of_Z (count (fun p => Store.risk_level p =? 2) ideas));
               ("low", of_Z (count (fun p => Store.risk_level p =? 1) ideas)) ]);
      ("resource_types",
        JObj [ ("internal",
                 of_Z (count (fun p => Store.resource_type p =? 1) ideas));
               ("external",
                 of_Z (count (fun p => Store.resource_type p =? 2) ideas));
               ("mixed",
                 of_Z (count (fun p => Store.resource_type p =? 3) ideas)) ]) ].

Definition generateDashboard (ideas : list Store.row) (viewType : option string)
  : text :=
  JSON_stringify (dashboard ideas).

(** *** The three tool calls *)

Definition add_idea (args : Args.t) : request :=
  {| name := "idea_bot_add"; arguments := args |}.

Definition get_ideas (args : Args.t) : request :=
  {| name := "idea_bot_get"; arguments := args |}.

Definition artifact (args : Args.t) : request :=
  {| name := "idea_artifact"; arguments := args |}.

(** *** Stores the handler can produce *)

Inductive reachable : Store.database -> Prop :=
| reachable_empty : reachable Store.empty
| reachable_call now request db :
    reachable db -> reachable (fst (CallTool now request db)).

End IdeaBot.

(** ** The tool catalog of [idea-bot.js] *)

Module Tools.

(** The schema of one key of an [inputSchema]. *)
Inductive key_schema :=
| StringKey (enum : option (list string)) (default : option string)
| NumberKey (minimum maximum : option Z).

(** A tool descriptor; its [inputSchema] is of type [object] with the
    [properties] and [required] below. *)
Record tool := {
  name : string;
  description : string;
  properties : list (string * key_schema);
  required : list string
}.

Definition ADD_IDEA_TOOL : tool :=
  {| name := "idea_bot_add";
     description :=
       "Add a new project idea to the database with details like name, category, priority, etc.";
     properties :=
       [ ("project_name", StringKey None None);
         ("category", StringKey None None);
         ("priority_level", NumberKey (Some 1) (Some 4));
         ("size_score", NumberKey (Some 1) (Some 3));
         ("business_impact", NumberKey (Some 1) (Some 4));
         ("resource_type", NumberKey (Some 1) (Some 3));
         ("risk_level", NumberKey (Some 1) (Some 3));
         ("project_phase",
           StringKey
             (Some ["Planning"; "In Progress"; "On Hold"; "Completed"]) None);
         ("notes", StringKey None None) ];
     required := ["project_name"; "category"] |}.

Definition GET_IDEA_TOOL : tool :=
  {| name := "idea_bot_get";
     description :=
       "Retrieve project ideas with optional filters for category, phase, or priority level";
     properties :=
       [ ("project_name", StringKey None None);
         ("category", StringKey None None);
         ("project_tier", NumberKey None None);
         ("project_phase", StringKey None None) ];
     required := [] |}.

Definition ARTIFACT_TOOL : tool :=
  {| name := "idea_artifact";
     description := "Generate visualization from idea_store data";
     properties :=
       [ ("view_type",
           StringKey (Some ["all"; "priority"; "category"; "phase"])
             (Some "all")) ];
     required := [] |}.

(** The handler registered for [ListToolsRequestSchema]: the third entry
    is [{...ARTIFACT_TOOL, description: ...}]. *)
Definition ListTools : list tool :=
  [ ADD_IDEA_TOOL;
    GET_IDEA_TOOL;
    {| name := name ARTIFACT_TOOL;
       description :=
         "Generate visualization from idea_store table data (provided as JSON in response)";
       properties := properties ARTIFACT_TOOL;
       required := required ARTIFACT_TOOL |} ].

(** The value of a string key of the argument bag, by name. *)
Definition string_key (k : string) (args : Args.t) : option string :=
  if String.eqb k "project_name" then Args.project_name args
  else if String.eqb k "category" then Args.category args
  else if String.eqb k "project_phase" then Args.project_phase args
  else if String.eqb k "notes" then Args.notes args
  else if String.eqb k "view_type" then Args.view_type args
  else None.

(** The value of a number key of the argument bag, by name. *)
Definition number_key (k : string) (args : Args.t) : option Z :=
  if String.eqb k "priority_level" then Args.priority_level args
  else if String.eqb k "size_score" then Args.size_score args
  else if String.eqb k "business_impact" then Args.business_impact args
  else if String.eqb k "resource_type" then Args.resource_type args
  else if String.eqb k "risk_level" then Args.risk_level args
  else if String.eqb k "project_tier" then Args.project_tier args
  else None.

Definition present (k : string) (args : Args.t) : bool :=
  match string_key k args, number_key k args with
  | None, None => false
  | _, _ => true
  end.

(** One key against its schema: an absent key passes, a string must be
    one of the [enum] when there is one, a number must respect the
    [minimum] and [maximum] there are. *)
Definition key_admitted (args : Args.t) (entry : string * key_schema) : bool :=
  match snd entry with
  | StringKey enum _ =>
      match string_key (fst entry) args, enum with
      | Some s, Some values => Sql.in_list s values
      | _, _ => true
      end
  | NumberKey minimum maximum =>
      match number_key (fst entry) args with
      | Some n =>
          match minimum with Some lo => lo <=? n | None => true end
          && match maximum with Some hi => n <=? hi | None => true end
      | None => true
      end
  end.

(** JSON Schema validation of an argument bag against a tool's
    [inputSchema].  The schema is what the server advertises; the call
    handler itself never runs this check. *)
Definition admits (t : tool) (args : Args.t) : bool :=
  forallb (fun k => present k args) (required t)
  && forallb (key_admitted args) (properties t).

End Tools.

(** ** The database file: [setup.ts] and the handler over named tables *)

Module Database.

(** The tables of the file [data/project_tracker.db], by name, each with
    its rows and AUTOINCREMENT counter. *)
Definition file := list (string * Store.database).

Fixpoint table (name : string) (f : file) : option Store.database :=
  match f with
  | [] => None
  | (n, t) :: f' => if String.eqb name n then Some t else table name f'
  end.

(** The file with the contents of the table [name] replaced. *)
Fixpoint replace (name : string) (t : Store.database) (f : file) : file :=
  match f with
  | [] => []
  | (n, t') :: f' =>
      if String.eqb name n then (n, t) :: f' else (n, t') :: replace name t f'
  end.

(** [db.exec(schema)] with the [schema.sql] of the repository:
    [CREATE TABLE IF NOT EXISTS projects (...)]. *)
Definition exec_schema (f : file) : file :=
  match table "projects" f with
  | Some _ => f
  | None => (f ++ [("projects", Store.empty)])%list
  end.

(** [setupDatabase()] on its successful path: [existing] is the database
    file found under [data/], [None] when there is none yet and [open]
    creates it empty. *)
Definition setupDatabase (existing : option file) : file :=
  exec_schema match existing with
              | Some f => f
              | None => []
              end.

(** The error of a statement that names a table the file does not hold. *)
Definition no_such_table (name : string) : IdeaBot.response :=
  {| IdeaBot.content :=
       IdeaBot.Plain ("Error: SQLITE_ERROR: no such table: " ++ name);
     IdeaBot.isError := true |}.

(** The call handler against a database file: the three statements
    address the table [idea_store]; a call of another name sends no
    statement. *)
Definition CallToolIn (now : string) (request : IdeaBot.request) (f : file)
  : file * IdeaBot.response :=
  match table Store.table_name f with
  | Some db =>
      let out := IdeaBot.CallTool now request db in
      (replace Store.table_name (fst out) f, snd out)
  | None =>
      if String.eqb (IdeaBot.name request) "idea_bot_add"
         || String.eqb (IdeaBot.name request) "idea_bot_get"
         || String.eqb (IdeaBot.name request) "idea_artifact"
      then (f, no_such_table Store.table_name)
      else
        (f, {| IdeaBot.content :=
                 IdeaBot.Plain ("Unknown tool: " ++ IdeaBot.name request);
               IdeaBot.isError := true |})
  end.

End Database.

(** * Properties *)

Import Js IdeaBot.

(** ** Vocabulary of the specification *)

(** The sum of the five scored fields of a record. *)
Definition score_sum (r : Store.row) : Z :=
  Store.priority_level r + Store.size_score r + Store.business_impact r
  + Store.resource_type r + Store.risk_level r.

(** The scoring rule of the data model: [total_score] is the sum, and
    [project_tier] follows the two thresholds. *)
Definition derived (r : Store.row) : Prop :=
  Store.total_score r = score_sum r
  /\ (16 <= Store.total_score r -> Store.project_tier r = 1)
  /\ (11 <= Store.total_score r < 16 -> Store.project_tier r = 2)
  /\ (Store.total_score r < 11 -> Store.project_tier r = 3).

(** The response is a success whose text is the JSON array of exactly the
    records [ideas], in that order. *)
Definition returned (resp : response) (ideas : list Store.row) : Prop :=
  content resp = Stringified (JArr (map row_object ideas))
  /\ isError resp = false.

(** The member [k] of the JSON text of a response. *)
Definition member (k : string) (resp : response) : option json :=
  match content resp with
  | Stringified j => field k j
  | Plain _ => None
  end.

(** A documented default: the value when the key is absent. *)
Definition default_to {A : Type} (d : A) (o : option A) : A :=
  match o with
  | Some a => a
  | None => d
  end.

Definition in_range (lo hi : Z) (o : option Z) : bool :=
  match o with
  | Some n => Sql.between lo hi n
  | None => true
  end.

(** Valid add-idea inputs: both required texts present and non-empty,
    every supplied scored field inside its documented range, a supplied
    phase among the four enumerated ones. *)
Definition valid_add (args : Args.t) : bool :=
  truthy_string (Args.project_name args)
  && truthy_string (Args.category args)
  && in_range 1 4 (Args.priority_level args)
  && in_range 1 3 (Args.size_score args)
  && in_range 1 4 (Args.business_impact args)
  && in_range 1 3 (Args.resource_type args)
  && in_range 1 3 (Args.risk_level args)
  && match Args.project_phase args with
     | Some p => Sql.in_list p Store.phases
     | None => true
     end.

(** The record the specification expects an add-idea call to store. *)
Definition expected_record (now : string) (args : Args.t)
  (db : Store.database) : Store.row :=
  let p := default_to 1 (Args.priority_level args) in
  let s := default_to 1 (Args.size_score args) in
  let b := default_to 1 (Args.business_impact args) in
  let r := default_to 1 (Args.resource_type args) in
  let k := default_to 1 (Args.risk_level args) in
  {| Store.id := Store.next_rowid db;
     Store.project_name := default_to EmptyString (Args.project_name args);
     Store.category := default_to EmptyString (Args.category args);
     Store.priority_level := p;
     Store.size_score := s;
     Store.business_impact := b;
     Store.resource_type := r;
     Store.risk_level := k;
     Store.total_score := p + s + b + r + k;
     Store.project_tier :=
       if 16 <=? p + s + b + r + k then 1
       else if 11 <=? p + s + b + r + k then 2 else 3;
     Store.project_phase := default_to "Planning" (Args.project_phase args);
     Store.notes := default_to EmptyString (Args.notes args);
     Store.created_at := now;
     Store.updated_at := now |}.

(** The filters of a get-ideas call other than [project_name]. *)
Definition other_filters (args : Args.t) (r : Store.row) : bool :=
  forallb (Store.holds r) (get_conditions (Args.with_project_name None args)).

(** [a] may stand before [b] in the artifact's order: higher priority
    first, then higher total score. *)
Definition precedes (a b : Store.row) : Prop :=
  Store.priority_level b < Store.priority_level a
  \/ (Store.priority_level a = Store.priority_level b
      /\ Store.total_score b <= Store.total_score a).

(** [s] with its ASCII capitals folded. *)
Fixpoint lowered (s : string) : string :=
  match s with
  | EmptyString => EmptyString
  | String c s' => String (Sql.to_lower c) (lowered s')
  end.

(** A filter text that holds neither [%] nor [_]. *)
Fixpoint plain (f : string) : bool :=
  match f with
  | EmptyString => true
  | String c f' =>
      negb (Ascii.eqb c Sql.percent) && negb (Ascii.eqb c Sql.underscore)
      && plain f'
  end.

(** [f] occurs in [s] as a run of adjacent characters, with matching
    case. *)
Definition occurs (f s : string) : Prop :=
  exists a b, s = a ++ f ++ b.

(** [f] occurs in [s] as a run of adjacent characters, up to the case of
    ASCII letters. *)
Definition occurs_nocase (f s : string) : Prop :=
  exists a m b, s = a ++ m ++ b /\ lowered m = lowered f.

(** A scored field that is present, not [0], and outside [lo..hi]. *)
Definition rejected_value (lo hi : Z) (o : option Z) : bool :=
  match o with
  | Some n => negb (n =? 0) && negb (Sql.between lo hi n)
  | None => false
  end.

(** ** The INSERT, unfolded *)

(** The row an accepted INSERT appends. *)
Definition appended (now : string) (v : Store.bound) (name cat : string)
  (db : Store.database) : Store.row :=
  {| Store.id := Store.next_rowid db;
     Store.project_name := name;
     Store.category := cat;
     Store.priority_level := Store.b_priority_level v;
     Store.size_score := Store.b_size_score v;
     Store.business_impact := Store.b_business_impact v;
     Store.resource_type := Store.b_resource_type v;
     Store.risk_level := Store.b_risk_level v;
     Store.total_score :=
       Store.generated_total_score (Store.b_priority_level v)
         (Store.b_size_score v) (Store.b_business_impact v)
         (Store.b_resource_type v) (Store.b_risk_level v);
     Store.project_tier :=
       Store.generated_project_tier (Store.b_priority_level v)
         (Store.b_size_score v) (Store.b_business_impact v)
         (Store.b_resource_type v) (Store.b_risk_level v);
     Store.project_phase := Store.b_project_phase v;
     Store.notes := Store.b_notes v;
     Store.created_at := now;
     Store.updated_at := now |}.

(** The CHECK constraints of the bound values, taken together. *)
Definition checks (v : Store.bound) : bool :=
  Sql.between 1 4 (Store.b_priority_level v)
  && Sql.between 1 3 (Store.b_size_score v)
  && Sql.between 1 4 (Store.b_business_impact v)
  && Sql.between 1 3 (Store.b_resource_type v)
  && Sql.between 1 3 (Store.b_risk_level v)
  && Sql.in_list (Store.b_project_phase v) Store.phases.

(** ** Sample calls *)

(** An add-idea bag holding the two required keys only. *)
Definition idea (name cat : string) : Args.t :=
  Args.with_category (Some cat) (Args.with_project_name (Some name) Args.none).

(** The store after one add-idea call on the empty store. *)
Definition one_idea (name : string) : Store.database :=
  fst (CallTool "2024-05-01 09:00:00" (add_idea (idea name "tools"))
         Store.empty).

(** The store after the same add-idea call once more. *)
Definition same_idea_twice (name : string) : Store.database :=
  fst (CallTool "2024-05-01 09:05:00" (add_idea (idea name "tools"))
         (one_idea name)).

(** The row the first call stores. *)
Definition first_row (name : string) : Store.row :=
  expected_record "2024-05-01 09:00:00" (idea name "tools") Store.empty.

(** ** Vocabulary of the further properties *)

(** A scored field the INSERT lets through: absent, [0] (both replaced
    by the default), or inside [lo..hi]. *)
Definition passes (lo hi : Z) (o : option Z) : bool :=
  match o with
  | Some n => (n =? 0) || Sql.between lo hi n
  | None => true
  end.

Definition is_some {A : Type} (o : option A) : bool :=
  match o with
  | Some _ => true
  | None => false
  end.

(** The add-idea bags the handler stores: both required keys present,
    every scored field passing, the phase absent, empty or one of the
    four. *)
Definition add_accepted (args : Args.t) : bool :=
  is_some (Args.project_name args)
  && is_some (Args.category args)
  && passes 1 4 (Args.priority_level args)
  && passes 1 3 (Args.size_score args)
  && passes 1 4 (Args.business_impact args)
  && passes 1 3 (Args.resource_type args)
  && passes 1 3 (Args.risk_level args)
  && match Args.project_phase args with
     | Some p => String.eqb p EmptyString || Sql.in_list p Store.phases
     | None => true
     end.

(** A row that respects every column constraint of the table. *)
Definition constrained (r : Store.row) : Prop :=
  1 <= Store.priority_level r <= 4
  /\ 1 <= Store.size_score r <= 3
  /\ 1 <= Store.business_impact r <= 4
  /\ 1 <= Store.resource_type r <= 3
  /\ 1 <= Store.risk_level r <= 3
  /\ In (Store.project_phase r) Store.phases
  /\ 5 <= Store.total_score r <= 17
  /\ 1 <= Store.project_tier r <= 3
  /\ Store.updated_at r = Store.created_at r.

(** What the four get-ideas filters ask of a row, read off the argument
    bag: an absent, empty or zero filter asks nothing. *)
Definition wanted (args : Args.t) (r : Store.row) : bool :=
  match Args.project_name args with
  | Some f =>
      String.eqb f EmptyString
      || Sql.like ("%" ++ f ++ "%") (Store.project_name r)
  | None => true
  end
  && match Args.category args with
     | Some c => String.eqb c EmptyString || String.eqb (Store.category r) c
     | None => true
     end
  && match Args.project_tier args with
     | Some t => (t =? 0) || (Store.project_tier r =? t)
     | None => true
     end
  && match Args.project_phase args with
     | Some p =>
         String.eqb p EmptyString || String.eqb (Store.project_phase r) p
     | None => true
     end.

(** The member [k] of an optional JSON value. *)
Definition sub (k : string) (o : option json) : option json :=
  match o with
  | Some j => field k j
  | None => None
  end.

(** The member [k] of the text [generateDashboard] returns. *)
Definition dashboard_member (k : string) (ideas : list Store.row)
  (viewType : option string) : option json :=
  match generateDashboard ideas viewType with
  | Stringified j => field k j
  | Plain _ => None
  end.



Definition high_priority (p : Store.row) : bool :=
  3 <=? Store.priority_level p.

(** Rows numbered from 1 in table order, the counter at their number. *)
Definition numbered (db : Store.database) : Prop :=
  (forall k r, nth_error (Store.idea_store db) k = Some r ->
               Store.id r = Z.of_nat k + 1)
  /\ Store.sqlite_sequence db = Z.of_nat (List.length (Store.idea_store db)).

(** A number as [JSON.stringify] writes it. *)
Definition written_number (x : number) : json :=
  if is_finite x then JNum x else JNull.

(** The sum the average of [generateDashboard] divides. *)
Definition score_total (ideas : list Store.row) : Z :=
  fold_left (fun sum p => sum + Store.total_score p) ideas 0.

(** ** Text *)

Lemma append_empty_r (s : string) : s ++ EmptyString = s.
Proof. induction s; simpl; congruence. Qed.

Lemma length_append (a b : string) :
  String.length (a ++ b) = (String.length a + String.length b)%nat.
Proof. induction a; simpl; congruence. Qed.

(** ** LIKE *)

Section Like.

(** The scan a [%] starts. *)
Let any_run (p : string) : string -> bool :=
  fix any_run (t : string) : bool :=
    Sql.like p t
    || match t with
       | EmptyString => false
       | String _ t' => any_run t'
       end.

Lemma like_percent_unfold p s :
  Sql.like (String Sql.percent p) s = any_run p s.
Proof. reflexivity. Qed.

Lemma like_char_unfold c p s :
  Ascii.eqb c Sql.percent = false ->
  Sql.like (String c p) s =
  match s with
  | EmptyString => false
  | String d s' =>
      (Ascii.eqb c Sql.underscore
       || Ascii.eqb (Sql.to_lower c) (Sql.to_lower d))
      && Sql.like p s'
  end.
Proof. intros H. simpl. rewrite H. reflexivity. Qed.

Lemma any_run_split p s :
  any_run p s = true <-> exists a b, s = a ++ b /\ Sql.like p b = true.
Proof.
  split.
  - induction s as [|d s IH]; simpl; intros H.
    + rewrite orb_false_r in H. exists EmptyString, EmptyString. auto.
    + apply orb_true_iff in H. destruct H as [H|H].
      * exists EmptyString, (String d s). auto.
      * destruct (IH H) as (a & b & -> & Hb).
        exists (String d a), b. auto.
  - intros (a & b & -> & Hb).
    induction a as [|d a IH]; simpl.
    + destruct b; simpl; rewrite Hb; reflexivity.
    + fold (any_run p (a ++ b)). rewrite IH. apply orb_true_r.
Qed.

(** A leading [%] lets the rest of the pattern start anywhere. *)
Lemma like_percent p s :
  Sql.like (String Sql.percent p) s = true <->
  exists a b, s = a ++ b /\ Sql.like p b = true.
Proof. rewrite like_percent_unfold. apply any_run_split. Qed.

Lemma like_only_percent s : Sql.like "%" s = true.
Proof.
  change "%" with (String Sql.percent EmptyString).
  apply like_percent. exists s, EmptyString. split; [|reflexivity].
  induction s; simpl; congruence.
Qed.

(** A text matches itself as a pattern, whatever characters it holds. *)
Lemma like_self_then n q t :
  Sql.like q t = true -> Sql.like (n ++ q) (n ++ t) = true.
Proof.
  intros H. induction n as [|c n IH]; simpl; [exact H|].
  destruct (Ascii.eqb c Sql.percent) eqn:E.
  - fold (any_run (n ++ q) (n ++ t)).
    assert (any_run (n ++ q) (n ++ t) = true) as ->.
    { apply any_run_split. exists EmptyString, (n ++ t). auto. }
    apply orb_true_r.
  - rewrite IH, Ascii.eqb_refl, orb_true_r. reflexivity.
Qed.

Lemma like_contains_self n : Sql.like ("%" ++ n ++ "%") n = true.
Proof.
  change ("%" ++ n ++ "%") with (String Sql.percent (n ++ "%")).
  apply like_percent. exists EmptyString, n. split; [reflexivity|].
  rewrite <- (append_empty_r n) at 2.
  apply like_self_then, like_only_percent.
Qed.

Lemma like_plain_prefix f q s :
  plain f = true ->
  Sql.like (f ++ q) s = true <->
  exists m t, s = m ++ t /\ lowered m = lowered f /\ Sql.like q t = true.
Proof.
  intros Hf. revert s. induction f as [|c f IH]; intros s.
  - simpl. split.
    + intros H. exists EmptyString, s. auto.
    + intros (m & t & -> & Hm & Ht). destruct m; [exact Ht|discriminate].
  - simpl in Hf. apply andb_true_iff in Hf as [Hc Hf].
    apply andb_true_iff in Hc as [Hp Hu].
    apply negb_true_iff in Hp, Hu.
    change (String c f ++ q) with (String c (f ++ q)).
    rewrite (like_char_unfold _ _ _ Hp), Hu. simpl orb.
    destruct s as [|d s].
    + split; [discriminate|].
      intros (m & t & E & Hm & _). destruct m; discriminate.
    + rewrite andb_true_iff, (IH Hf), Ascii.eqb_eq. split.
      * intros (Hcd & m & t & -> & Hm & Ht).
        exists (String d m), t. simpl. rewrite Hm, Hcd. auto.
      * intros (m & t & E & Hm & Ht).
        destruct m as [|d' m]; [discriminate|].
        simpl in E, Hm. injection E as -> ->. injection Hm as Hd Hm.
        split; [congruence|]. exists m, t. auto.
Qed.

(** For a filter without wildcards the pattern [%f%] is containment up
    to ASCII case. *)
Lemma like_plain_contains f s :
  plain f = true ->
  Sql.like ("%" ++ f ++ "%") s = true <-> occurs_nocase f s.
Proof.
  intros Hf.
  change ("%" ++ f ++ "%") with (String Sql.percent (f ++ "%")).
  rewrite like_percent. split.
  - intros (a & b & -> & H).
    apply (like_plain_prefix _ _ _ Hf) in H as (m & t & -> & Hm & _).
    exists a, m, t. auto.
  - intros (a & m & b & -> & Hm).
    exists a, (m ++ b). split; [reflexivity|].
    apply (like_plain_prefix _ _ _ Hf).
    exists m, b. auto using like_only_percent.
Qed.

End Like.

(** ** The INSERT *)

Lemma insert_done now v db name cat :
  Store.b_project_name v = Some name ->
  Store.b_category v = Some cat ->
  checks v = true ->
  Store.insert now v db =
  Sql.Done {| Store.idea_store :=
                Store.idea_store db ++ [appended now v name cat db];
              Store.sqlite_sequence := Store.next_rowid db |}.
Proof.
  intros Hn Hc Hk. unfold checks in Hk.
  do 5 (apply andb_true_iff in Hk as [Hk ?]).
  unfold Store.insert, Sql.bind, Sql.not_null, Sql.check.
  rewrite Hn, Hc.
  repeat match goal with H : _ = true |- _ => rewrite H; clear H end.
  reflexivity.
Qed.

Lemma insert_inversion now v db db' :
  Store.insert now v db = Sql.Done db' ->
  exists name cat,
    Store.b_project_name v = Some name /\
    Store.b_category v = Some cat /\
    checks v = true /\
    db' = {| Store.idea_store :=
               Store.idea_store db ++ [appended now v name cat db];
             Store.sqlite_sequence := Store.next_rowid db |}.
Proof.
  destruct (Store.b_project_name v) as [name|] eqn:Hn;
    [|unfold Store.insert; rewrite Hn; discriminate].
  destruct (Store.b_category v) as [cat|] eqn:Hc;
    [|unfold Store.insert; rewrite Hn, Hc; discriminate].
  destruct (checks v) eqn:Hk.
  - rewrite (insert_done _ _ _ _ _ Hn Hc Hk). intros [= <-].
    exists name, cat. auto.
  - intros H. exfalso. revert H Hk.
    unfold Store.insert, Sql.bind, Sql.not_null, Sql.check, checks.
    rewrite Hn, Hc.
    repeat match goal with
      | |- context [if ?b then _ else _] => destruct b; try discriminate
      end.
Qed.

(** A failed CHECK throws. *)
Lemma insert_thrown now v db :
  checks v = false -> exists e, Store.insert now v db = Sql.Thrown e.
Proof.
  intros Hk.
  destruct (Store.insert now v db) as [db'|e] eqn:H; [|eauto].
  apply insert_inversion in H as (? & ? & _ & _ & H & _). congruence.
Qed.

(** ** ORDER BY *)

Section Sorting.

Variable before : Store.row -> Store.row -> bool.

Lemma place_permutation x l :
  Permutation (x :: l) (Store.place before x l).
Proof.
  induction l as [|y l IH]; simpl; [reflexivity|].
  destruct (before x y); [reflexivity|].
  rewrite perm_swap. apply perm_skip, IH.
Qed.

Lemma sort_by_permutation l : Permutation l (Store.sort_by before l).
Proof.
  induction l as [|x l IH]; simpl; [reflexivity|].
  rewrite <- place_permutation. apply perm_skip, IH.
Qed.

Hypothesis before_total : forall a b, before a b = false -> before b a = true.
Hypothesis before_trans :
  forall a b c, before a b = true -> before b c = true -> before a c = true.

Lemma place_sorted x l :
  StronglySorted (fun a b => before a b = true) l ->
  StronglySorted (fun a b => before a b = true) (Store.place before x l).
Proof.
  induction 1 as [|y l Hl IH Hy]; simpl.
  - repeat constructor.
  - destruct (before x y) eqn:E.
    + constructor; [constructor; assumption|].
      constructor; [exact E|].
      rewrite Forall_forall in *. eauto.
    + constructor; [exact IH|].
      rewrite Forall_forall in *. intros z Hz.
      apply (Permutation_in _ (Permutation_sym (place_permutation x l))) in Hz.
      destruct Hz as [<-|Hz]; auto.
Qed.

Lemma sort_by_sorted l :
  StronglySorted (fun a b => before a b = true) (Store.sort_by before l).
Proof.
  induction l as [|x l IH]; simpl; [constructor|].
  apply place_sorted, IH.
Qed.

End Sorting.

Lemma artifact_order_total a b :
  Store.artifact_order a b = false -> Store.artifact_order b a = true.
Proof. unfold Store.artifact_order. lia. Qed.

Lemma artifact_order_trans a b c :
  Store.artifact_order a b = true -> Store.artifact_order b c = true ->
  Store.artifact_order a c = true.
Proof. unfold Store.artifact_order. lia. Qed.

(** ** The handler, call by call *)

Lemma stringify_rows l :
  stringify (JArr (map row_object l)) = JArr (map row_object l).
Proof.
  simpl. f_equal. induction l as [|r l IH]; simpl; [reflexivity|].
  now rewrite IH.
Qed.

Lemma get_ideas_returned now args db :
  CallTool now (get_ideas args) db =
  (db, {| content :=
            Stringified
              (JArr (map row_object
                       (Store.select_where (get_conditions args) db)));
          isError := false |}).
Proof.
  unfold CallTool, get_ideas, JSON_stringify. cbn [name arguments].
  change (String.eqb "idea_bot_get" "idea_bot_add") with false.
  change (String.eqb "idea_bot_get" "idea_bot_get") with true.
  cbv iota. now rewrite stringify_rows.
Qed.

Lemma artifact_returned now args db :
  CallTool now (artifact args) db =
  (db, {| content :=
            Stringified
              (JObj [ ("data",
                        JArr (map row_object (Store.select_ordered db)));
                      ("visualization_instructions",
                        stringify (visualization_instructions args)) ]);
          isError := false |}).
Proof.
  unfold CallTool, artifact, JSON_stringify. cbn [name arguments].
  change (String.eqb "idea_artifact" "idea_bot_add") with false.
  change (String.eqb "idea_artifact" "idea_bot_get") with false.
  change (String.eqb "idea_artifact" "idea_artifact") with true.
  cbv iota.
  pose proof (stringify_rows (Store.select_ordered db)) as H.
  simpl in H. injection H as H. simpl.
  destruct (Args.view_type args); simpl; rewrite H; reflexivity.
Qed.

Lemma add_idea_call now args db :
  CallTool now (add_idea args) db =
  match Store.insert now (add_params args) db with
  | Sql.Done db' =>
      (db', {| content :=
                 Plain ("Added project " ++ quote
                        ++ interpolate (Args.project_name args)
                        ++ quote ++ " to database");
               isError := false |})
  | Sql.Thrown e => caught db e
  end.
Proof. reflexivity. Qed.

(** Every call leaves the table as it was or appends one accepted row. *)
Lemma CallTool_rows now request db :
  Store.idea_store (fst (CallTool now request db)) = Store.idea_store db
  \/ exists v name cat,
       checks v = true /\
       Store.idea_store (fst (CallTool now request db)) =
       (Store.idea_store db ++ [appended now v name cat db])%list.
Proof.
  unfold CallTool.
  destruct (String.eqb (name request) "idea_bot_add").
  - destruct (Store.insert _ _ db) as [db'|e] eqn:H; [|left; reflexivity].
    apply insert_inversion in H as (n & c & _ & _ & Hk & ->).
    right. exists (add_params (arguments request)), n, c. auto.
  - left.
    destruct (String.eqb (name request) "idea_bot_get"); [reflexivity|].
    destruct (String.eqb (name request) "idea_artifact"); reflexivity.
Qed.

Lemma appended_derived now v name cat db :
  derived (appended now v name cat db).
Proof.
  unfold derived, score_sum, appended, Store.generated_total_score,
    Store.generated_project_tier. cbn.
  repeat split; intros;
    repeat match goal with
      | |- context [if ?b then _ else _] => destruct b eqn:?
      end; lia.
Qed.

Lemma reachable_derived db :
  reachable db -> Forall derived (Store.idea_store db).
Proof.
  induction 1 as [|now request db _ IH]; [constructor|].
  destruct (CallTool_rows now request db) as [->|(v & n & c & _ & ->)];
    [exact IH|].
  apply Forall_app. split; [exact IH|].
  constructor; [apply appended_derived|constructor].
Qed.

(** ** Scoring (C1) *)

(** C1.  In every store the handler can produce, each record's
    [total_score] is the sum of its five scored fields and its
    [project_tier] follows the thresholds 16 and 11; an add-idea call
    binds no value to either column, so the store it produces does not
    depend on a [project_tier] key in its arguments. *)
Theorem stored_scores_are_derived db :
  reachable db ->
  (forall r, In r (Store.idea_store db) -> derived r)
  /\ (forall now args t,
        fst (CallTool now (add_idea (Args.with_project_tier t args)) db)
        = fst (CallTool now (add_idea args) db)).
Proof.
  intros H. split.
  - apply Forall_forall, reachable_derived, H.
  - reflexivity.
Qed.

Lemma stored_scores_are_derived_witness :
  reachable (one_idea "Atlas") /\ derived (first_row "Atlas").
Proof.
  assert (reachable (one_idea "Atlas")) as H
    by (apply reachable_call, reachable_empty).
  split; [exact H|].
  apply (proj1 (stored_scores_are_derived (one_idea "Atlas") H)).
  simpl. left. reflexivity.
Defined.

(** ** Reads leave the store alone (C10) *)

(** C10.  A get-ideas call and an artifact call hand back the store they
    were given: the table and its rowid counter are unchanged. *)
Theorem reads_do_not_mutate now args db :
  fst (CallTool now (get_ideas args) db) = db
  /\ fst (CallTool now (artifact args) db) = db.
Proof. split; reflexivity. Qed.

(** ** Falsy filters (C9) *)

(** C9.  A get-ideas filter supplied as [0] (for [project_tier]) or as the
    empty string (for [project_name], [category], [project_phase]) gives
    the response of the same call without that key. *)
Theorem falsy_filter_is_absent now args db :
  CallTool now (get_ideas (Args.with_project_tier (Some 0) args)) db
  = CallTool now (get_ideas (Args.with_project_tier None args)) db
  /\ CallTool now (get_ideas (Args.with_project_name (Some EmptyString) args)) db
     = CallTool now (get_ideas (Args.with_project_name None args)) db
  /\ CallTool now (get_ideas (Args.with_category (Some EmptyString) args)) db
     = CallTool now (get_ideas (Args.with_category None args)) db
  /\ CallTool now (get_ideas (Args.with_project_phase (Some EmptyString) args)) db
     = CallTool now (get_ideas (Args.with_project_phase None args)) db.
Proof. repeat split; reflexivity. Qed.

(** ** Out-of-range scored fields (C3) *)

Lemma rejected_value_fails lo hi o :
  rejected_value lo hi o = true -> Sql.between lo hi (number_or o 1) = false.
Proof.
  destruct o as [n|]; [|discriminate]. simpl.
  destruct (n =? 0); simpl; [discriminate|].
  now intros ->%negb_true_iff.
Qed.

(** The CHECK constraints do reject every such value: the call reports an
    error and the store is the one it was given. *)
Lemma add_nonzero_out_of_range_is_rejected now args db :
  rejected_value 1 4 (Args.priority_level args)
  || rejected_value 1 3 (Args.size_score args)
  || rejected_value 1 4 (Args.business_impact args)
  || rejected_value 1 3 (Args.resource_type args)
  || rejected_value 1 3 (Args.risk_level args) = true ->
  fst (CallTool now (add_idea args) db) = db
  /\ isError (snd (CallTool now (add_idea args) db)) = true.
Proof.
  intros H.
  assert (checks (add_params args) = false) as Hk.
  { unfold checks, add_params. cbn [Store.b_priority_level Store.b_size_score
      Store.b_business_impact Store.b_resource_type Store.b_risk_level].
    repeat (apply orb_true_iff in H as [H|H]);
      apply rejected_value_fails in H; rewrite H;
      repeat rewrite ?andb_false_r, ?andb_false_l; reflexivity. }
  destruct (insert_thrown now _ db Hk) as [e He].
  rewrite add_idea_call, He. split; reflexivity.
Qed.

(** C3, at [priority_level = 0].  The value is outside the documented
    range [1..4], yet the call reports no error and appends a row, whose
    [priority_level] is the default [1]: [0 || 1] hands [1] to the
    INSERT, so the CHECK constraint never sees the [0]. *)
Theorem add_priority_zero_is_stored now name cat db :
  let args := Args.with_priority_level (Some 0) (idea name cat) in
  let out := CallTool now (add_idea args) db in
  isError (snd out) = false
  /\ List.length (Store.idea_store (fst out))
     = S (List.length (Store.idea_store db))
  /\ Store.idea_store (fst out)
     = (Store.idea_store db ++ [expected_record now (idea name cat) db])%list.
Proof.
  intros args out. subst out.
  rewrite add_idea_call.
  rewrite (insert_done now (add_params args) db name cat); try reflexivity.
  cbn [fst snd isError Store.idea_store].
  rewrite length_app. cbn [List.length]. repeat split. lia.
Qed.

(** ** Add, then get by name (C2) *)

Lemma number_or_valid hi o :
  1 <= hi -> in_range 1 hi o = true ->
  number_or o 1 = default_to 1 o
  /\ Sql.between 1 hi (default_to 1 o) = true.
Proof.
  intros Hhi. destruct o as [n|]; simpl.
  - intros H. split; [|exact H].
    unfold Sql.between in H. destruct (n =? 0) eqn:E; simpl; [lia|reflexivity].
  - intros _. split; [reflexivity|]. unfold Sql.between. lia.
Qed.

Lemma phase_or_valid o :
  match o with
  | Some p => Sql.in_list p Store.phases
  | None => true
  end = true ->
  string_or o "Planning" = default_to "Planning" o
  /\ Sql.in_list (default_to "Planning" o) Store.phases = true.
Proof.
  destruct o as [[|c p]|]; simpl; intros H; try discriminate; auto.
Qed.

Lemma notes_or o : string_or o EmptyString = default_to EmptyString o.
Proof. destruct o as [[|c s]|]; reflexivity. Qed.

Lemma truthy_string_some o :
  truthy_string o = true -> exists s, o = Some s /\ s <> EmptyString.
Proof.
  destruct o as [s|]; [|discriminate]. simpl.
  intros H%negb_true_iff%String.eqb_neq. eauto.
Qed.

(** Valid arguments pass every constraint, and the row appended for them
    is the expected record. *)
Lemma valid_add_accepted now args db :
  valid_add args = true ->
  exists name cat : string,
    Args.project_name args = Some name /\ name <> EmptyString /\
    Args.category args = Some cat /\
    Store.insert now (add_params args) db =
    Sql.Done {| Store.idea_store :=
                  (Store.idea_store db ++ [expected_record now args db])%list;
                Store.sqlite_sequence := Store.next_rowid db |}.
Proof.
  unfold valid_add. intros H.
  do 7 (apply andb_true_iff in H as [H ?]).
  destruct (truthy_string_some _ H) as (name & Hn & Hne).
  destruct (truthy_string_some (Args.category args)) as (cat & Hc & _);
    [assumption|].
  destruct (number_or_valid 4 (Args.priority_level args)) as [E1 K1];
    [lia|assumption|].
  destruct (number_or_valid 3 (Args.size_score args)) as [E2 K2];
    [lia|assumption|].
  destruct (number_or_valid 4 (Args.business_impact args)) as [E3 K3];
    [lia|assumption|].
  destruct (number_or_valid 3 (Args.resource_type args)) as [E4 K4];
    [lia|assumption|].
  destruct (number_or_valid 3 (Args.risk_level args)) as [E5 K5];
    [lia|assumption|].
  destruct (phase_or_valid (Args.project_phase args)) as [E6 K6];
    [assumption|].
  exists name, cat. repeat split; try assumption.
  rewrite (insert_done now (add_params args) db name cat); try assumption.
  - unfold appended, expected_record, add_params,
      Store.generated_total_score, Store.generated_project_tier.
    cbn [Store.b_priority_level Store.b_size_score Store.b_business_impact
         Store.b_resource_type Store.b_risk_level Store.b_project_phase
         Store.b_notes].
    rewrite E1, E2, E3, E4, E5, E6, notes_or, Hn, Hc. reflexivity.
  - unfold checks, add_params.
    cbn [Store.b_priority_level Store.b_size_score Store.b_business_impact
         Store.b_resource_type Store.b_risk_level Store.b_project_phase].
    rewrite E1, E2, E3, E4, E5, E6, K1, K2, K3, K4, K5, K6. reflexivity.
Qed.

Lemma filter_none {A} (f : A -> bool) l :
  (forall x, In x l -> f x = false) -> filter f l = [].
Proof.
  induction l as [|x l IH]; simpl; intros H; [reflexivity|].
  rewrite (H x) by auto. apply IH. auto.
Qed.

Lemma name_condition name :
  name <> EmptyString ->
  get_conditions (Args.with_project_name (Some name) Args.none)
  = [Store.ProjectNameLike ("%" ++ name ++ "%")].
Proof.
  intros H%String.eqb_neq. unfold get_conditions. simpl. now rewrite H.
Qed.

(** C2, amended.  For valid add-idea arguments and a store none of whose
    records LIKE-matches the new name, the add-idea call reports no error
    and a get-ideas call filtered on that name then returns exactly one
    record: the supplied values with the documented defaults for the
    omitted ones, the derived score and tier, the next rowid and the
    time of the insert. *)
Theorem add_then_get_by_name now now' args db name :
  valid_add args = true ->
  Args.project_name args = Some name ->
  (forall r, In r (Store.idea_store db) ->
             Sql.like ("%" ++ name ++ "%") (Store.project_name r) = false) ->
  let out := CallTool now (add_idea args) db in
  isError (snd out) = false
  /\ returned
       (snd (CallTool now'
               (get_ideas (Args.with_project_name (Some name) Args.none))
               (fst out)))
       [expected_record now args db].
Proof.
  intros Hv Hn Hfresh out. subst out.
  destruct (valid_add_accepted now args db Hv) as (n & cat & Hn' & Hne & _ & Hi).
  assert (n = name) as -> by congruence.
  rewrite add_idea_call, Hi. cbn [fst snd isError]. split; [reflexivity|].
  rewrite get_ideas_returned. split; [|reflexivity]. cbn [snd content].
  do 3 f_equal. unfold Store.select_where. cbn [Store.idea_store].
  rewrite (name_condition _ Hne), filter_app.
  assert (Store.project_name (expected_record now args db) = name) as Hrow
    by (unfold expected_record; cbn [Store.project_name]; now rewrite Hn).
  rewrite filter_none.
  - cbn [app filter forallb Store.holds].
    now rewrite Hrow, like_contains_self.
  - intros r Hr. cbn [forallb Store.holds]. now rewrite (Hfresh r Hr).
Qed.

Lemma add_then_get_by_name_witness :
  valid_add (idea "Atlas" "tools") = true
  /\ returned
       (snd (CallTool "2024-05-01 09:10:00"
               (get_ideas (Args.with_project_name (Some "Atlas") Args.none))
               (one_idea "Atlas")))
       [first_row "Atlas"].
Proof.
  split; [reflexivity|].
  apply (add_then_get_by_name "2024-05-01 09:00:00" "2024-05-01 09:10:00"
           (idea "Atlas" "tools") Store.empty "Atlas").
  - reflexivity.
  - reflexivity.
  - intros r [].
Defined.

(** C2 as stated fails when the store already holds a record of that
    name: after the same valid add-idea call twice, get-ideas on the name
    returns two records, not one. *)
Lemma add_then_get_by_name_counterexample :
  valid_add (idea "Atlas" "tools") = true
  /\ (exists r1 r2,
        returned
          (snd (CallTool "2024-05-01 09:10:00"
                  (get_ideas (Args.with_project_name (Some "Atlas") Args.none))
                  (same_idea_twice "Atlas")))
          [r1; r2])
  /\ ~ (exists r,
          returned
            (snd (CallTool "2024-05-01 09:10:00"
                    (get_ideas
                       (Args.with_project_name (Some "Atlas") Args.none))
                    (same_idea_twice "Atlas")))
            [r]).
Proof.
  split; [reflexivity|]. split.
  - eexists _, _. rewrite get_ideas_returned. split; reflexivity.
  - intros (r & H & _). rewrite get_ideas_returned in H.
    vm_compute in H. discriminate H.
Qed.

(** ** The project_name filter (C4) *)

Lemma get_conditions_name args f :
  Args.project_name args = Some f -> f <> EmptyString ->
  get_conditions args
  = Store.ProjectNameLike ("%" ++ f ++ "%")
    :: get_conditions (Args.with_project_name None args).
Proof.
  intros Hf Hne%String.eqb_neq. unfold get_conditions.
  rewrite Hf. cbn [truthy_string interpolate Args.with_project_name
    Args.project_name Args.category Args.project_tier Args.project_phase].
  rewrite Hne. reflexivity.
Qed.

(** C4, amended.  Under a non-empty [project_name] filter [f], get-ideas
    returns a stored record exactly when its name matches the LIKE
    pattern [%f%] and the other supplied filters hold; for a filter
    without [%] and [_], that is exactly when [f] occurs in the name as a
    run of adjacent characters up to the case of ASCII letters. *)
Theorem project_name_filter_is_like now args db f :
  Args.project_name args = Some f ->
  f <> EmptyString ->
  exists ideas,
    returned (snd (CallTool now (get_ideas args) db)) ideas
    /\ (forall r,
          In r ideas <->
          In r (Store.idea_store db)
          /\ Sql.like ("%" ++ f ++ "%") (Store.project_name r) = true
          /\ other_filters args r = true)
    /\ (plain f = true ->
        forall r,
          In r ideas <->
          In r (Store.idea_store db)
          /\ occurs_nocase f (Store.project_name r)
          /\ other_filters args r = true).
Proof.
  intros Hf Hne.
  exists (Store.select_where (get_conditions args) db).
  rewrite get_ideas_returned.
  assert (forall r,
            In r (Store.select_where (get_conditions args) db) <->
            In r (Store.idea_store db)
            /\ Sql.like ("%" ++ f ++ "%") (Store.project_name r) = true
            /\ other_filters args r = true) as Hin.
  { intros r. unfold Store.select_where, other_filters.
    rewrite filter_In, (get_conditions_name args f Hf Hne).
    cbn [forallb Store.holds]. rewrite andb_true_iff. reflexivity. }
  split; [split; reflexivity|]. split; [exact Hin|].
  intros Hp r. rewrite Hin, (like_plain_contains f _ Hp). reflexivity.
Qed.

Lemma project_name_filter_is_like_witness :
  exists ideas,
    returned
      (snd (CallTool "2024-05-01 09:10:00"
              (get_ideas (Args.with_project_name (Some "atl") Args.none))
              (one_idea "Atlas")))
      ideas
    /\ (In (first_row "Atlas") ideas <->
        In (first_row "Atlas") (Store.idea_store (one_idea "Atlas"))
        /\ occurs_nocase "atl" "Atlas"
        /\ other_filters (Args.with_project_name (Some "atl") Args.none)
             (first_row "Atlas") = true).
Proof.
  destruct (project_name_filter_is_like "2024-05-01 09:10:00"
              (Args.with_project_name (Some "atl") Args.none)
              (one_idea "Atlas") "atl" eq_refl)
    as (ideas & Hret & _ & Hplain).
  - discriminate.
  - exists ideas. split; [exact Hret|].
    exact (Hplain eq_refl (first_row "Atlas")).
Defined.

(** C4 as stated fails on letter case: the filter [alpha] returns the
    record named [Alpha], in which [alpha] does not occur with matching
    case. *)
Lemma project_name_filter_counterexample :
  returned
    (snd (CallTool "2024-05-01 09:10:00"
            (get_ideas (Args.with_project_name (Some "alpha") Args.none))
            (one_idea "Alpha")))
    [first_row "Alpha"]
  /\ Store.project_name (first_row "Alpha") = "Alpha"
  /\ ~ occurs "alpha" "Alpha".
Proof.
  split; [rewrite get_ideas_returned; split; reflexivity|].
  split; [reflexivity|].
  intros (a & b & H).
  destruct a as [|c a].
  - simpl in H. discriminate H.
  - apply (f_equal String.length) in H.
    rewrite !length_append in H. simpl in H. lia.
Qed.

(** ** The project_tier filter (C5) *)

Lemma derived_tier r :
  derived r -> 1 <= Store.project_tier r <= 3.
Proof. unfold derived. lia. Qed.

Lemma get_conditions_tier args t :
  Args.project_tier args = Some t -> t <> 0 ->
  In (Store.ProjectTierEq t) (get_conditions args).
Proof.
  intros Ht Hne%Z.eqb_neq. unfold get_conditions.
  rewrite Ht. cbn [truthy_number]. rewrite Hne. cbn [negb].
  rewrite !in_app_iff. right. right. left. left. reflexivity.
Qed.

(** C5, amended.  On every store the handler can produce, a get-ideas
    call whose [project_tier] is neither [0] nor one of 1, 2, 3 reports
    no error and returns no record. *)
Theorem out_of_range_tier_matches_nothing now args db t :
  reachable db ->
  Args.project_tier args = Some t ->
  t <> 0 ->
  t < 1 \/ 3 < t ->
  returned (snd (CallTool now (get_ideas args) db)) [].
Proof.
  intros Hdb Ht H0 Hout. rewrite get_ideas_returned.
  split; [|reflexivity]. cbn [snd content]. do 3 f_equal.
  apply filter_none. intros r Hr.
  pose proof (reachable_derived db Hdb) as Hall.
  rewrite Forall_forall in Hall. apply Hall, derived_tier in Hr.
  destruct (forallb (Store.holds r) (get_conditions args)) eqn:E;
    [|reflexivity].
  rewrite forallb_forall in E.
  specialize (E _ (get_conditions_tier args t Ht H0)).
  simpl in E. lia.
Qed.

Lemma out_of_range_tier_matches_nothing_witness :
  reachable (one_idea "Atlas")
  /\ returned
       (snd (CallTool "2024-05-01 09:10:00"
               (get_ideas (Args.with_project_tier (Some 7) Args.none))
               (one_idea "Atlas")))
       [].
Proof.
  assert (reachable (one_idea "Atlas")) as H
    by (apply reachable_call, reachable_empty).
  split; [exact H|].
  apply (out_of_range_tier_matches_nothing "2024-05-01 09:10:00"
           (Args.with_project_tier (Some 7) Args.none)
           (one_idea "Atlas") 7 H).
  - reflexivity.
  - discriminate.
  - right. reflexivity.
Defined.

(** C5 as stated fails at [project_tier = 0]: the filter is dropped and
    the stored record is returned. *)
Lemma tier_zero_counterexample :
  returned
    (snd (CallTool "2024-05-01 09:10:00"
            (get_ideas (Args.with_project_tier (Some 0) Args.none))
            (one_idea "Atlas")))
    [first_row "Atlas"]
  /\ ~ returned
         (snd (CallTool "2024-05-01 09:10:00"
                 (get_ideas (Args.with_project_tier (Some 0) Args.none))
                 (one_idea "Atlas")))
         [].
Proof.
  rewrite get_ideas_returned. split; [split; reflexivity|].
  intros [H _]. vm_compute in H. discriminate H.
Qed.

(** ** The artifact's view type (C6) *)

(** C6, at an artifact call without [view_type].  A supplied view type
    is named in [visualization_instructions.type]; with the key omitted
    the handler passes [undefined], so the JSON text has no [type] member
    at all, and in particular not the declared default [all]. *)
Theorem artifact_view_type_is_not_defaulted now args db :
  (forall v,
     exists vi,
       member "visualization_instructions"
         (snd (CallTool now (artifact (Args.with_view_type (Some v) args)) db))
       = Some vi
       /\ field "type" vi = Some (JStr v))
  /\ (exists vi,
        member "visualization_instructions"
          (snd (CallTool now (artifact (Args.with_view_type None args)) db))
        = Some vi
        /\ field "type" vi = None
        /\ field "type" vi <> Some (JStr "all")).
Proof.
  split; [intros v|]; rewrite artifact_returned; eexists;
    (split; [reflexivity|]); simpl; [reflexivity|].
  split; [reflexivity|discriminate].
Qed.

(** ** The artifact's order (C7) *)

Lemma precedes_iff a b : Store.artifact_order a b = true <-> precedes a b.
Proof. unfold Store.artifact_order, precedes. lia. Qed.

Lemma select_ordered_sorted db :
  StronglySorted precedes (Store.select_ordered db).
Proof.
  pose proof (sort_by_sorted Store.artifact_order artifact_order_total
                artifact_order_trans (Store.idea_store db)) as H.
  unfold Store.select_ordered.
  induction H as [|a l _ IH Ha]; constructor; [exact IH|].
  eapply Forall_impl; [|exact Ha]. intros b. apply precedes_iff.
Qed.

(** C7.  An artifact call returns, under [data], all stored records (a
    rearrangement of the table), each record standing before the ones
    of lower priority and, at equal priority, before the ones of lower
    or equal total score; a further artifact call on the store the first
    one leaves returns the records in the very same order. *)
Theorem artifact_is_ordered_and_repeatable now args db :
  exists ideas,
    member "data" (snd (CallTool now (artifact args) db))
    = Some (JArr (map row_object ideas))
    /\ isError (snd (CallTool now (artifact args) db)) = false
    /\ Permutation (Store.idea_store db) ideas
    /\ StronglySorted precedes ideas
    /\ (forall now' args',
          member "data"
            (snd (CallTool now' (artifact args')
                    (fst (CallTool now (artifact args) db))))
          = Some (JArr (map row_object ideas))).
Proof.
  exists (Store.select_ordered db).
  repeat split.
  - now rewrite artifact_returned.
  - apply sort_by_permutation.
  - apply select_ordered_sorted.
  - intros now' args'. now rewrite !artifact_returned.
Qed.

(** ** The empty store (C8) *)

(** C8.  On a store without records the artifact call reports no error
    and returns an empty [data] array; [generateDashboard] on the empty
    list returns its summary with both counts [0], every tally empty or
    [0], and the average, [0 / 0 = NaN], written as [null]. *)
Theorem empty_store_is_safe now args sequence viewType :
  let db := {| Store.idea_store := []; Store.sqlite_sequence := sequence |} in
  isError (snd (CallTool now (artifact args) db)) = false
  /\ member "data" (snd (CallTool now (artifact args) db)) = Some (JArr [])
  /\ div 0 (Z.of_nat (List.length (Store.idea_store db))) = NaN
  /\ generateDashboard [] viewType
     = Stringified
         (JObj
            [ ("summary",
                JObj [ ("total_count", of_Z 0);
                       ("high_priority_count", of_Z 0);
                       ("average_score", JNull) ]);
              ("categories", JObj []);
              ("phases", JObj []);
              ("priority_projects", JArr []);
              ("risk_levels",
                JObj [ ("high", of_Z 0); ("medium", of_Z 0);
                       ("low", of_Z 0) ]);
              ("resource_types",
                JObj [ ("internal", of_Z 0); ("external", of_Z 0);
                       ("mixed", of_Z 0) ]) ]).
Proof.
  intros db. rewrite artifact_returned. repeat split.
Qed.

(** * Further properties *)

(** ** Dispatch and the tool catalog *)

Lemma CallTool_other_name now request db :
  String.eqb (name request) "idea_bot_add" = false ->
  String.eqb (name request) "idea_bot_get" = false ->
  String.eqb (name request) "idea_artifact" = false ->
  CallTool now request db
  = (db, {| content := Plain ("Unknown tool: " ++ name request);
            isError := true |}).
Proof. intros H1 H2 H3. unfold CallTool. now rewrite H1, H2, H3. Qed.

(** X1.  A call whose name is none of the three tool names is answered
    with the error flag set and the text [Unknown tool: <name>]; the
    store is the one it was given. *)
Theorem unknown_tool_is_reported now request db :
  name request <> "idea_bot_add" ->
  name request <> "idea_bot_get" ->
  name request <> "idea_artifact" ->
  CallTool now request db
  = (db, {| content := Plain ("Unknown tool: " ++ name request);
            isError := true |}).
Proof.
  intros H1%String.eqb_neq H2%String.eqb_neq H3%String.eqb_neq.
  now apply CallTool_other_name.
Qed.

Lemma unknown_tool_is_reported_witness :
  CallTool "2024-05-01 09:10:00"
    {| name := "idea_bot_delete"; arguments := Args.none |}
    (one_idea "Atlas")
  = (one_idea "Atlas",
     {| content := Plain "Unknown tool: idea_bot_delete"; isError := true |}).
Proof.
  apply (unknown_tool_is_reported "2024-05-01 09:10:00"
           {| name := "idea_bot_delete"; arguments := Args.none |}
           (one_idea "Atlas")); discriminate.
Defined.

Lemma listed_names :
  map Tools.name Tools.ListTools
  = ["idea_bot_add"; "idea_bot_get"; "idea_artifact"].
Proof. reflexivity. Qed.

Lemma unknown_text_differs s n :
  "Added project " ++ s <> "Unknown tool: " ++ n
  /\ "Error: " ++ s <> "Unknown tool: " ++ n.
Proof. split; discriminate. Qed.

(** X2.  The names the tool list advertises are pairwise different, and
    they are exactly the names the call handler serves: a call is
    answered [Unknown tool: <name>] (on some store, at some time, with
    some arguments) if and only if its name is not listed. *)
Theorem listed_tools_are_the_served_ones :
  NoDup (map Tools.name Tools.ListTools)
  /\ forall n,
       In n (map Tools.name Tools.ListTools) <->
       forall now args db,
         content (snd (CallTool now {| name := n; arguments := args |} db))
         <> Plain ("Unknown tool: " ++ n).
Proof.
  split.
  - rewrite listed_names. repeat constructor; simpl; intuition discriminate.
  - intros n. rewrite listed_names. split.
    + intros [<-|[<-|[<-|[]]]] now args db.
      * change {| name := "idea_bot_add"; arguments := args |}
          with (add_idea args).
        rewrite add_idea_call.
        destruct (Store.insert _ _ db); cbn [snd content caught];
          intros [= H]; revert H; apply unknown_text_differs.
      * change {| name := "idea_bot_get"; arguments := args |}
          with (get_ideas args).
        rewrite get_ideas_returned. discriminate.
      * change {| name := "idea_artifact"; arguments := args |}
          with (artifact args).
        rewrite artifact_returned. discriminate.
    + intros H.
      destruct (String.eqb_spec n "idea_bot_add") as [->|H1]; [simpl; auto|].
      destruct (String.eqb_spec n "idea_bot_get") as [->|H2]; [simpl; auto|].
      destruct (String.eqb_spec n "idea_artifact") as [->|H3];
        [simpl; auto|].
      exfalso. apply (H EmptyString Args.none Store.empty).
      rewrite CallTool_other_name; [reflexivity| |  |];
        now apply String.eqb_neq.
Qed.

(** ** Which add-idea calls are stored *)

Lemma max_rowid_bound r l : In r l -> Store.id r <= Store.max_rowid l.
Proof.
  induction l as [|x l IH]; simpl; [intros []|].
  intros [->|H]; [lia|]. specialize (IH H). lia.
Qed.

Lemma passes_between lo hi o :
  Sql.between lo hi 1 = true ->
  Sql.between lo hi (number_or o 1) = passes lo hi o.
Proof.
  intros H1. destruct o as [n|]; simpl; [|exact H1].
  destruct (n =? 0); simpl; [exact H1|reflexivity].
Qed.

Lemma checks_add_params args :
  checks (add_params args)
  = passes 1 4 (Args.priority_level args)
    && passes 1 3 (Args.size_score args)
    && passes 1 4 (Args.business_impact args)
    && passes 1 3 (Args.resource_type args)
    && passes 1 3 (Args.risk_level args)
    && match Args.project_phase args with
       | Some p => String.eqb p EmptyString || Sql.in_list p Store.phases
       | None => true
       end.
Proof.
  unfold checks, add_params.
  cbn [Store.b_priority_level Store.b_size_score Store.b_business_impact
       Store.b_resource_type Store.b_risk_level Store.b_project_phase].
  rewrite !passes_between by reflexivity. f_equal.
  destruct (Args.project_phase args) as [[|c p]|]; reflexivity.
Qed.

(** The outcome of the INSERT of an add-idea call, case by case. *)
Lemma add_insert_outcome now args db :
  if add_accepted args then
    exists name cat,
      Args.project_name args = Some name /\
      Args.category args = Some cat /\
      Store.insert now (add_params args) db
      = Sql.Done
          {| Store.idea_store :=
               (Store.idea_store db
                ++ [appended now (add_params args) name cat db])%list;
             Store.sqlite_sequence := Store.next_rowid db |}
  else exists e, Store.insert now (add_params args) db = Sql.Thrown e.
Proof.
  destruct (add_accepted args) eqn:Ha.
  - unfold add_accepted in Ha. rewrite <- !andb_assoc in Ha.
    apply andb_true_iff in Ha as [Hn Ha].
    apply andb_true_iff in Ha as [Hc Ha].
    destruct (Args.project_name args) as [name|] eqn:En; [|discriminate].
    destruct (Args.category args) as [cat|] eqn:Ec; [|discriminate].
    exists name, cat. repeat split.
    apply insert_done; [exact En|exact Ec|].
    rewrite checks_add_params, <- !andb_assoc. exact Ha.
  - destruct (Store.insert now (add_params args) db) as [db'|e] eqn:Hi;
      [|eauto].
    apply insert_inversion in Hi as (name & cat & En & Ec & Hk & _).
    exfalso. rewrite checks_add_params in Hk.
    unfold add_accepted in Ha. cbn [add_params Store.b_project_name
      Store.b_category] in En, Ec. rewrite En, Ec in Ha.
    cbn [is_some andb] in Ha. congruence.
Qed.

(** X3.  An add-idea call reports no error exactly when both required
    keys are present, each scored field is absent, [0] or inside its
    range, and the phase is absent, empty or one of the four phases. *)
Theorem add_reports_no_error_iff_accepted now args db :
  isError (snd (CallTool now (add_idea args) db)) = negb (add_accepted args).
Proof.
  rewrite add_idea_call.
  pose proof (add_insert_outcome now args db) as H.
  destruct (add_accepted args).
  - destruct H as (name & cat & _ & _ & ->). reflexivity.
  - destruct H as (e & ->). reflexivity.
Qed.

(** X4.  A call that is answered with the error flag set leaves the store
    as it was, whatever its name and arguments. *)
Theorem error_leaves_store now request db :
  isError (snd (CallTool now request db)) = true ->
  fst (CallTool now request db) = db.
Proof.
  unfold CallTool.
  destruct (String.eqb (name request) "idea_bot_add").
  - destruct (Store.insert _ _ db); [discriminate|reflexivity].
  - destruct (String.eqb (name request) "idea_bot_get"); [reflexivity|].
    destruct (String.eqb (name request) "idea_artifact"); reflexivity.
Qed.

Lemma error_leaves_store_witness :
  fst (CallTool "2024-05-01 09:10:00"
         (add_idea (Args.with_priority_level (Some 5) (idea "Borealis" "ops")))
         (one_idea "Atlas"))
  = one_idea "Atlas".
Proof.
  apply (error_leaves_store "2024-05-01 09:10:00"
           (add_idea
              (Args.with_priority_level (Some 5) (idea "Borealis" "ops")))
           (one_idea "Atlas")).
  reflexivity.
Defined.

(** X5.  An add-idea call that reports no error keeps every earlier row
    in place and appends exactly one: it carries the supplied name and
    category, a rowid above every rowid in the table, which becomes the
    counter, and the time of the call in both timestamps; the reply
    quotes the supplied name. *)
Theorem accepted_add_appends_one_row now args db :
  isError (snd (CallTool now (add_idea args) db)) = false ->
  exists name cat r,
    Args.project_name args = Some name
    /\ Args.category args = Some cat
    /\ Store.idea_store (fst (CallTool now (add_idea args) db))
       = (Store.idea_store db ++ [r])%list
    /\ Store.project_name r = name
    /\ Store.category r = cat
    /\ Store.created_at r = now
    /\ Store.updated_at r = now
    /\ (forall r', In r' (Store.idea_store db) -> Store.id r' < Store.id r)
    /\ Store.sqlite_sequence (fst (CallTool now (add_idea args) db))
       = Store.id r
    /\ content (snd (CallTool now (add_idea args) db))
       = Plain ("Added project " ++ quote ++ name ++ quote ++ " to database").
Proof.
  rewrite add_idea_call.
  pose proof (add_insert_outcome now args db) as H.
  destruct (add_accepted args).
  - destruct H as (name & cat & En & Ec & ->). intros _.
    exists name, cat, (appended now (add_params args) name cat db).
    rewrite En. split; [reflexivity|]. split; [exact Ec|].
    do 5 (split; [reflexivity|]). split; [|split; reflexivity].
    intros r' Hr'. cbn [appended Store.id]. unfold Store.next_rowid.
    pose proof (max_rowid_bound _ _ Hr'). lia.
  - destruct H as (e & ->). discriminate.
Qed.

Lemma accepted_add_appends_one_row_witness :
  exists name cat r,
    Args.project_name (idea "Borealis" "ops") = Some name
    /\ Args.category (idea "Borealis" "ops") = Some cat
    /\ Store.idea_store
         (fst (CallTool "2024-05-01 09:10:00"
                 (add_idea (idea "Borealis" "ops")) (one_idea "Atlas")))
       = (Store.idea_store (one_idea "Atlas") ++ [r])%list
    /\ Store.project_name r = name
    /\ Store.category r = cat
    /\ Store.created_at r = "2024-05-01 09:10:00"
    /\ Store.updated_at r = "2024-05-01 09:10:00"
    /\ (forall r', In r' (Store.idea_store (one_idea "Atlas")) ->
                   Store.id r' < Store.id r)
    /\ Store.sqlite_sequence
         (fst (CallTool "2024-05-01 09:10:00"
                 (add_idea (idea "Borealis" "ops")) (one_idea "Atlas")))
       = Store.id r
    /\ content
         (snd (CallTool "2024-05-01 09:10:00"
                 (add_idea (idea "Borealis" "ops")) (one_idea "Atlas")))
       = Plain ("Added project " ++ quote ++ name ++ quote ++ " to database").
Proof.
  apply (accepted_add_appends_one_row "2024-05-01 09:10:00"
           (idea "Borealis" "ops") (one_idea "Atlas")).
  reflexivity.
Defined.

(** X6.  The advertised input schema of [idea_bot_add] is enough for the
    table's constraints: every bag it admits is stored without error, as
    the record of the supplied values with the defaults for the omitted
    keys. *)
Theorem schema_admitted_add_is_stored now args db :
  Tools.admits Tools.ADD_IDEA_TOOL args = true ->
  isError (snd (CallTool now (add_idea args) db)) = false
  /\ Store.idea_store (fst (CallTool now (add_idea args) db))
     = (Store.idea_store db ++ [expected_record now args db])%list.
Proof.
  intros H. unfold Tools.admits, Tools.ADD_IDEA_TOOL in H.
  cbn [Tools.required Tools.properties forallb Tools.key_admitted fst snd]
    in H.
  unfold Tools.present, Tools.string_key, Tools.number_key in H.
  simpl in H. rewrite !andb_true_iff in H.
  destruct H as [[Hn [Hc _]] [_ [_ [H1 [H2 [H3 [H4 [H5 [H6 _]]]]]]]]].
  destruct (Args.project_name args) as [name|] eqn:En; [|discriminate].
  destruct (Args.category args) as [cat|] eqn:Ec; [|discriminate].
  destruct (number_or_valid 4 (Args.priority_level args)) as [E1 K1];
    [lia|exact H1|].
  destruct (number_or_valid 3 (Args.size_score args)) as [E2 K2];
    [lia|exact H2|].
  destruct (number_or_valid 4 (Args.business_impact args)) as [E3 K3];
    [lia|exact H3|].
  destruct (number_or_valid 3 (Args.resource_type args)) as [E4 K4];
    [lia|exact H4|].
  destruct (number_or_valid 3 (Args.risk_level args)) as [E5 K5];
    [lia|exact H5|].
  destruct (phase_or_valid (Args.project_phase args)) as [E6 K6];
    [exact H6|].
  rewrite add_idea_call.
  rewrite (insert_done now (add_params args) db name cat); try assumption.
  - split; [reflexivity|]. cbn [fst Store.idea_store]. do 2 f_equal.
    unfold appended, expected_record, add_params,
      Store.generated_total_score, Store.generated_project_tier.
    cbn [Store.b_priority_level Store.b_size_score Store.b_business_impact
         Store.b_resource_type Store.b_risk_level Store.b_project_phase
         Store.b_notes].
    rewrite E1, E2, E3, E4, E5, E6, notes_or, En, Ec. reflexivity.
  - unfold checks, add_params.
    cbn [Store.b_priority_level Store.b_size_score Store.b_business_impact
         Store.b_resource_type Store.b_risk_level Store.b_project_phase].
    rewrite E1, E2, E3, E4, E5, E6, K1, K2, K3, K4, K5, K6. reflexivity.
Qed.

Lemma schema_admitted_add_is_stored_witness :
  Tools.admits Tools.ADD_IDEA_TOOL
    (Args.with_priority_level (Some 4) (idea "Borealis" "ops")) = true
  /\ Store.idea_store
       (fst (CallTool "2024-05-01 09:10:00"
               (add_idea
                  (Args.with_priority_level (Some 4) (idea "Borealis" "ops")))
               (one_idea "Atlas")))
     = (Store.idea_store (one_idea "Atlas")
        ++ [expected_record "2024-05-01 09:10:00"
              (Args.with_priority_level (Some 4) (idea "Borealis" "ops"))
              (one_idea "Atlas")])%list.
Proof.
  split; [reflexivity|].
  apply (schema_admitted_add_is_stored "2024-05-01 09:10:00"
           (Args.with_priority_level (Some 4) (idea "Borealis" "ops"))
           (one_idea "Atlas")).
  reflexivity.
Defined.

(** ** What every reachable store satisfies *)

Lemma nth_error_snoc {A} (l : list A) (x : A) k y :
  nth_error (l ++ [x]) k = Some y ->
  nth_error l k = Some y \/ (k = List.length l /\ y = x).
Proof.
  intros H. destruct (Nat.lt_ge_cases k (List.length l)) as [Hk|Hk].
  - left. now rewrite nth_error_app1 in H.
  - rewrite nth_error_app2 in H by exact Hk.
    destruct (k - List.length l)%nat as [|[|m]] eqn:E; simpl in H;
      try discriminate.
    right. split; [lia|congruence].
Qed.

Lemma max_rowid_le l n :
  0 <= n -> (forall r, In r l -> Store.id r <= n) -> Store.max_rowid l <= n.
Proof.
  intros Hn. induction l as [|x l IH]; simpl; intros H; [lia|].
  specialize (IH (fun r Hr => H r (or_intror Hr))).
  specialize (H x (or_introl eq_refl)). lia.
Qed.

Lemma numbered_next db :
  numbered db ->
  Store.next_rowid db = Z.of_nat (List.length (Store.idea_store db)) + 1.
Proof.
  intros [Hid Hseq]. unfold Store.next_rowid. rewrite Hseq.
  assert (Store.max_rowid (Store.idea_store db)
          <= Z.of_nat (List.length (Store.idea_store db))); [|lia].
  apply max_rowid_le; [lia|]. intros r Hr.
  apply In_nth_error in Hr as [k Hk].
  rewrite (Hid _ _ Hk).
  assert (k < List.length (Store.idea_store db))%nat; [|lia].
  apply nth_error_Some. congruence.
Qed.

Lemma reachable_numbered db : reachable db -> numbered db.
Proof.
  induction 1 as [|now request db _ IH].
  - split; [intros [|k] r H; discriminate H|reflexivity].
  - unfold CallTool.
    destruct (String.eqb (name request) "idea_bot_add").
    + destruct (Store.insert _ _ db) as [db'|e] eqn:Hi; [|exact IH].
      apply insert_inversion in Hi as (n & c & _ & _ & _ & ->).
      cbn [fst]. pose proof (numbered_next db IH) as Hnext.
      destruct IH as [Hid Hseq]. split; cbn [Store.idea_store
        Store.sqlite_sequence].
      * intros k r [Hk|[-> ->]]%nth_error_snoc; [now apply Hid|].
        exact Hnext.
      * rewrite length_app, Hnext. simpl. lia.
    + destruct (String.eqb (name request) "idea_bot_get"); [exact IH|].
      destruct (String.eqb (name request) "idea_artifact"); exact IH.
Qed.

(** X7.  In every store the handler can produce, the record at position
    [k] of the table (counting from 0) has id [k + 1], so ids are unique
    and increase in table order, and the AUTOINCREMENT counter is the
    number of records. *)
Theorem ids_number_the_rows db :
  reachable db ->
  (forall k r, nth_error (Store.idea_store db) k = Some r ->
               Store.id r = Z.of_nat k + 1)
  /\ NoDup (map Store.id (Store.idea_store db))
  /\ Store.sqlite_sequence db = Z.of_nat (List.length (Store.idea_store db)).
Proof.
  intros H. destruct (reachable_numbered db H) as [Hid Hseq].
  repeat split; [exact Hid| |exact Hseq].
  apply NoDup_nth_error. intros i j Hi Hij.
  rewrite length_map in Hi. rewrite !nth_error_map in Hij.
  destruct (nth_error (Store.idea_store db) i) as [ri|] eqn:Ei;
    [|apply nth_error_None in Ei; lia].
  destruct (nth_error (Store.idea_store db) j) as [rj|] eqn:Ej;
    [|discriminate].
  simpl in Hij. injection Hij as Hij.
  rewrite (Hid _ _ Ei), (Hid _ _ Ej) in Hij. lia.
Qed.

Lemma ids_number_the_rows_witness :
  reachable (same_idea_twice "Atlas")
  /\ NoDup (map Store.id (Store.idea_store (same_idea_twice "Atlas")))
  /\ Store.sqlite_sequence (same_idea_twice "Atlas") = 2.
Proof.
  assert (reachable (same_idea_twice "Atlas")) as H
    by (do 2 apply reachable_call; apply reachable_empty).
  split; [exact H|].
  exact (proj2 (ids_number_the_rows (same_idea_twice "Atlas") H)).
Defined.

Lemma appended_constrained now v name cat db :
  checks v = true -> constrained (appended now v name cat db).
Proof.
  unfold checks, Sql.between, constrained, appended,
    Store.generated_total_score, Store.generated_project_tier.
  cbn [Store.priority_level Store.size_score Store.business_impact
       Store.resource_type Store.risk_level Store.project_phase
       Store.total_score Store.project_tier Store.updated_at
       Store.created_at].
  rewrite !andb_true_iff. intros [[[[[H1 H2] H3] H4] H5] H6].
  assert (In (Store.b_project_phase v) Store.phases) as Hp.
  { unfold Sql.in_list in H6. apply existsb_exists in H6 as (p & Hp & E).
    apply String.eqb_eq in E. now subst. }
  repeat split; try lia; try exact Hp;
    repeat match goal with
      | |- context [if ?b then _ else _] => destruct b
      end; lia.
Qed.

Lemma reachable_constrained db :
  reachable db -> Forall constrained (Store.idea_store db).
Proof.
  induction 1 as [|now request db _ IH]; [constructor|].
  destruct (CallTool_rows now request db) as [->|(v & n & c & Hk & ->)];
    [exact IH|].
  apply Forall_app. split; [exact IH|].
  constructor; [now apply appended_constrained|constructor].
Qed.

(** X8.  Every record of a store the handler can produce respects the
    column constraints: the five scored fields lie in their ranges, the
    phase is one of the four, the total score lies between 5 and 17, the
    tier between 1 and 3, and both timestamps are equal. *)
Theorem stored_rows_respect_constraints db :
  reachable db ->
  forall r, In r (Store.idea_store db) -> constrained r.
Proof. intros H. apply Forall_forall, reachable_constrained, H. Qed.

Lemma stored_rows_respect_constraints_witness :
  reachable (one_idea "Atlas") /\ constrained (first_row "Atlas").
Proof.
  assert (reachable (one_idea "Atlas")) as H
    by (apply reachable_call, reachable_empty).
  split; [exact H|].
  apply (stored_rows_respect_constraints (one_idea "Atlas") H).
  simpl. left. reflexivity.
Defined.

(** ** What get-ideas returns *)

Lemma conditions_wanted args r :
  forallb (Store.holds r) (get_conditions args) = wanted args r.
Proof.
  unfold get_conditions, wanted.
  destruct (Args.project_name args) as [f|];
    destruct (Args.category args) as [c|];
    destruct (Args.project_tier args) as [t|];
    destruct (Args.project_phase args) as [p|];
    cbn [truthy_string truthy_number interpolate];
    repeat match goal with
      | |- context [String.eqb ?s EmptyString] =>
          destruct (String.eqb s EmptyString)
      | |- context [?t =? 0] => destruct (t =? 0)
      end;
    cbn [negb app forallb Store.holds orb andb];
    rewrite ?andb_true_r, <- ?andb_assoc; reflexivity.
Qed.

Lemma select_where_wanted args db :
  Store.select_where (get_conditions args) db
  = filter (wanted args) (Store.idea_store db).
Proof.
  unfold Store.select_where. apply filter_ext.
  intros r. apply conditions_wanted.
Qed.

(** X9.  A get-ideas call never fails and returns, in table order, the
    stored records that pass every supplied filter: the name filter as
    the LIKE pattern [%f%], category, tier and phase by equality, an
    absent, empty or zero filter asking nothing. *)
Theorem get_ideas_returns_the_wanted_rows now args db :
  returned (snd (CallTool now (get_ideas args) db))
    (filter (wanted args) (Store.idea_store db)).
Proof.
  rewrite get_ideas_returned, select_where_wanted. split; reflexivity.
Qed.

Lemma filter_all {A} (f : A -> bool) l :
  (forall x, f x = true) -> filter f l = l.
Proof.
  intros H. induction l as [|x l IH]; simpl; [reflexivity|].
  now rewrite H, IH.
Qed.

(** X10.  A get-ideas call none of whose four filters is supplied with a
    truthy value returns the whole table, in table order. *)
Theorem get_ideas_without_filters_returns_all now args db :
  truthy_string (Args.project_name args) = false ->
  truthy_string (Args.category args) = false ->
  truthy_number (Args.project_tier args) = false ->
  truthy_string (Args.project_phase args) = false ->
  returned (snd (CallTool now (get_ideas args) db)) (Store.idea_store db).
Proof.
  intros Hn Hc Ht Hp. rewrite get_ideas_returned, select_where_wanted.
  rewrite filter_all; [split; reflexivity|].
  intros r. unfold wanted.
  destruct (Args.project_name args) as [f|];
    destruct (Args.category args) as [c|];
    destruct (Args.project_tier args) as [t|];
    destruct (Args.project_phase args) as [p|];
    cbn [truthy_string truthy_number] in Hn, Hc, Ht, Hp;
    rewrite ?negb_false_iff in *;
    rewrite ?Hn, ?Hc, ?Ht, ?Hp; reflexivity.
Qed.

Lemma get_ideas_without_filters_returns_all_witness :
  returned
    (snd (CallTool "2024-05-01 09:10:00" (get_ideas Args.none)
            (same_idea_twice "Atlas")))
    (Store.idea_store (same_idea_twice "Atlas")).
Proof.
  apply (get_ideas_without_filters_returns_all "2024-05-01 09:10:00"
           Args.none (same_idea_twice "Atlas")); reflexivity.
Defined.

Lemma like_literal f s : occurs f s -> Sql.like ("%" ++ f ++ "%") s = true.
Proof.
  intros (a & b & ->).
  change ("%" ++ f ++ "%") with (String Sql.percent (f ++ "%")).
  apply like_percent. exists a, (f ++ b). split; [reflexivity|].
  apply like_self_then, like_only_percent.
Qed.

(** X11.  The name filter never misses a literal occurrence: a stored
    record in whose name the filter text occurs character for character,
    whatever characters the filter holds, is returned whenever it passes
    the other filters. *)
Theorem name_filter_finds_literal_occurrences now args db f r :
  Args.project_name args = Some f ->
  In r (Store.idea_store db) ->
  occurs f (Store.project_name r) ->
  other_filters args r = true ->
  exists ideas,
    returned (snd (CallTool now (get_ideas args) db)) ideas /\ In r ideas.
Proof.
  intros Hf Hr Ho Hrest.
  exists (Store.select_where (get_conditions args) db).
  rewrite get_ideas_returned. split; [split; reflexivity|].
  apply filter_In. split; [exact Hr|].
  destruct (String.eqb_spec f EmptyString) as [->|Hne].
  - unfold other_filters in Hrest.
    replace (get_conditions args)
      with (get_conditions (Args.with_project_name None args));
      [exact Hrest|].
    unfold get_conditions. rewrite Hf. reflexivity.
  - rewrite (get_conditions_name args f Hf Hne).
    cbn [forallb Store.holds]. rewrite (like_literal _ _ Ho). exact Hrest.
Qed.

Lemma name_filter_finds_literal_occurrences_witness :
  occurs "50%" (Store.project_name (first_row "Save 50% now"))
  /\ exists ideas,
       returned
         (snd (CallTool "2024-05-01 09:10:00"
                 (get_ideas (Args.with_project_name (Some "50%") Args.none))
                 (one_idea "Save 50% now")))
         ideas
       /\ In (first_row "Save 50% now") ideas.
Proof.
  assert (occurs "50%" (Store.project_name (first_row "Save 50% now"))) as H
    by (exists "Save ", " now"; reflexivity).
  split; [exact H|].
  apply (name_filter_finds_literal_occurrences "2024-05-01 09:10:00"
           (Args.with_project_name (Some "50%") Args.none)
           (one_idea "Save 50% now") "50%" (first_row "Save 50% now")).
  - reflexivity.
  - simpl. left. reflexivity.
  - exact H.
  - reflexivity.
Defined.

(** ** Add, then read *)

(** X12.  After an add-idea call that reports no error, a get-ideas call
    returns what the same call returned before the add, followed by the
    new record when it passes the filters. *)
Theorem get_after_accepted_add now now' args filters db :
  isError (snd (CallTool now (add_idea args) db)) = false ->
  exists r,
    Store.idea_store (fst (CallTool now (add_idea args) db))
    = (Store.idea_store db ++ [r])%list
    /\ returned (snd (CallTool now' (get_ideas filters) db))
         (filter (wanted filters) (Store.idea_store db))
    /\ returned
         (snd (CallTool now' (get_ideas filters)
                 (fst (CallTool now (add_idea args) db))))
         (filter (wanted filters) (Store.idea_store db)
          ++ (if wanted filters r then [r] else [])).
Proof.
  rewrite add_idea_call.
  pose proof (add_insert_outcome now args db) as H.
  destruct (add_accepted args).
  - destruct H as (name & cat & _ & _ & ->). intros _.
    exists (appended now (add_params args) name cat db).
    rewrite !get_ideas_returned, !select_where_wanted.
    cbn [fst Store.idea_store]. rewrite filter_app.
    repeat split.
  - destruct H as (e & ->). discriminate.
Qed.

Lemma get_after_accepted_add_witness :
  exists r,
    Store.idea_store
      (fst (CallTool "2024-05-01 09:05:00"
              (add_idea (idea "Borealis" "ops")) (one_idea "Atlas")))
    = (Store.idea_store (one_idea "Atlas") ++ [r])%list
    /\ returned
         (snd (CallTool "2024-05-01 09:10:00"
                 (get_ideas (Args.with_category (Some "ops") Args.none))
                 (one_idea "Atlas")))
         (filter (wanted (Args.with_category (Some "ops") Args.none))
            (Store.idea_store (one_idea "Atlas")))
    /\ returned
         (snd (CallTool "2024-05-01 09:10:00"
                 (get_ideas (Args.with_category (Some "ops") Args.none))
                 (fst (CallTool "2024-05-01 09:05:00"
                         (add_idea (idea "Borealis" "ops"))
                         (one_idea "Atlas")))))
         (filter (wanted (Args.with_category (Some "ops") Args.none))
            (Store.idea_store (one_idea "Atlas"))
          ++ (if wanted (Args.with_category (Some "ops") Args.none) r
              then [r] else [])).
Proof.
  apply (get_after_accepted_add "2024-05-01 09:05:00" "2024-05-01 09:10:00"
           (idea "Borealis" "ops") (Args.with_category (Some "ops") Args.none)
           (one_idea "Atlas")).
  reflexivity.
Defined.

(** X13.  A record just added is always found under its own name: after
    an add-idea call that reports no error, get-ideas filtered on the
    supplied project_name returns the earlier records that match it,
    followed by the new record as the last one. *)
Theorem added_record_is_found_by_name now now' args name db :
  isError (snd (CallTool now (add_idea args) db)) = false ->
  Args.project_name args = Some name ->
  exists r,
    Store.project_name r = name
    /\ Store.idea_store (fst (CallTool now (add_idea args) db))
       = (Store.idea_store db ++ [r])%list
    /\ returned
         (snd (CallTool now'
                 (get_ideas (Args.with_project_name (Some name) Args.none))
                 (fst (CallTool now (add_idea args) db))))
         (filter (wanted (Args.with_project_name (Some name) Args.none))
            (Store.idea_store db)
          ++ [r]).
Proof.
  rewrite add_idea_call.
  pose proof (add_insert_outcome now args db) as H.
  destruct (add_accepted args).
  - destruct H as (n & cat & En & _ & ->). intros _ Hn.
    assert (n = name) as -> by congruence.
    exists (appended now (add_params args) name cat db).
    rewrite get_ideas_returned, select_where_wanted.
    cbn [fst Store.idea_store]. rewrite filter_app.
    assert (wanted (Args.with_project_name (Some name) Args.none)
              (appended now (add_params args) name cat db) = true) as Hw.
    { unfold wanted.
      cbn [Args.with_project_name Args.none Args.project_name Args.category
           Args.project_tier Args.project_phase appended Store.project_name].
      now rewrite like_contains_self, orb_true_r. }
    cbn [filter]. rewrite Hw. repeat split.
  - destruct H as (e & ->). discriminate.
Qed.

Lemma added_record_is_found_by_name_witness :
  exists r,
    Store.project_name r = "Atlas"
    /\ Store.idea_store (same_idea_twice "Atlas")
       = (Store.idea_store (one_idea "Atlas") ++ [r])%list
    /\ returned
         (snd (CallTool "2024-05-01 09:10:00"
                 (get_ideas (Args.with_project_name (Some "Atlas") Args.none))
                 (same_idea_twice "Atlas")))
         (filter (wanted (Args.with_project_name (Some "Atlas") Args.none))
            (Store.idea_store (one_idea "Atlas"))
          ++ [r]).
Proof.
  apply (added_record_is_found_by_name "2024-05-01 09:05:00"
           "2024-05-01 09:10:00" (idea "Atlas" "tools") "Atlas"
           (one_idea "Atlas")); reflexivity.
Defined.

(** ** The artifact payload *)

(** X14.  The records, the style and the element names of an artifact
    response do not depend on the arguments or on the time of the call:
    two artifact calls on the same store carry the same [data], and every
    response names the style [futuristic-neon] and the same five
    elements. *)
Theorem artifact_payload_ignores_arguments now now' args args' db :
  member "data" (snd (CallTool now (artifact args) db))
  = member "data" (snd (CallTool now' (artifact args') db))
  /\ sub "style"
       (member "visualization_instructions"
          (snd (CallTool now (artifact args) db)))
     = Some (JStr "futuristic-neon")
  /\ sub "elements"
       (member "visualization_instructions"
          (snd (CallTool now (artifact args) db)))
     = Some (JArr [ JStr "hexagonal-grid"; JStr "priority-matrix";
                    JStr "pipeline-view"; JStr "risk-heatmap";
                    JStr "resource-allocation" ]).
Proof.
  rewrite !artifact_returned. split; [reflexivity|].
  unfold member, visualization_instructions. cbn [snd content].
  destruct (Args.view_type args); split; reflexivity.
Qed.

(** ** [generateDashboard] *)

Lemma stringify_counters acc : stringify (counters acc) = counters acc.
Proof.
  unfold counters. simpl. f_equal.
  induction acc as [|[k n] acc IH]; simpl; [reflexivity|]. now rewrite IH.
Qed.

Lemma stringify_priority_projects l :
  stringify (JArr (map priority_project l)) = JArr (map priority_project l).
Proof.
  simpl. f_equal. induction l as [|r l IH]; simpl; [reflexivity|].
  now rewrite IH.
Qed.

(** The text [generateDashboard] returns, member by member. *)
Lemma generateDashboard_text ideas viewType :
  generateDashboard ideas viewType
  = Stringified
      (JObj
         [ ("summary",
             JObj [ ("total_count", of_Z (Z.of_nat (List.length ideas)));
                    ("high_priority_count", of_Z (count high_priority ideas));
                    ("average_score",
                      written_number
                        (div (score_total ideas)
                             (Z.of_nat (List.length ideas)))) ]);
           ("categories", counters (tally Store.category ideas));
           ("phases", counters (tally Store.project_phase ideas));
           ("priority_projects",
             JArr (map priority_project
                     (Store.sort_by by_score (filter high_priority ideas))));
           ("risk_levels",
             JObj [ ("high",
                      of_Z (count (fun p => Store.risk_level p =? 3) ideas));
                    ("medium",
                      of_Z (count (fun p => Store.risk_level p =? 2) ideas));
                    ("low",
                      of_Z (count (fun p => Store.risk_level p =? 1) ideas)) ]);
           ("resource_types",
             JObj [ ("internal",
                      of_Z (count (fun p => Store.resource_type p =? 1) ideas));
                    ("external",
                      of_Z (count (fun p => Store.resource_type p =? 2) ideas));
                    ("mixed",
                      of_Z (count (fun p => Store.resource_type p =? 3) ideas))
                  ]) ]).
Proof.
  unfold generateDashboard, JSON_stringify, dashboard. f_equal.
  pose proof (stringify_counters (tally Store.category ideas)) as Hc.
  pose proof (stringify_counters (tally Store.project_phase ideas)) as Hp.
  pose proof (stringify_priority_projects
                (Store.sort_by by_score (filter high_priority ideas))) as Hs.
  unfold counters, high_priority, written_number, score_total in *.
  remember (map (fun kv : string * Z => (fst kv, of_Z (snd kv)))
              (tally Store.category ideas)) as cm eqn:Ecm.
  remember (map (fun kv : string * Z => (fst kv, of_Z (snd kv)))
              (tally Store.project_phase ideas)) as pm eqn:Epm.
  remember (map priority_project
              (Store.sort_by by_score
                 (filter (fun p => 3 <=? Store.priority_level p) ideas)))
    as pl eqn:Epl.
  clear Ecm Epm Epl.
  generalize (div (fold_left (fun sum p => sum + Store.total_score p) ideas 0)
                  (Z.of_nat (List.length ideas))).
  intros x.
  cbn [stringify of_Z is_finite] in *.
  injection Hc as Hc. injection Hp as Hp. injection Hs as Hs.
  rewrite Hc, Hp, Hs.
  destruct (is_finite x); reflexivity.
Qed.









Lemma sorted_weaken {A} (R S : A -> A -> Prop) l :
  (forall a b, R a b -> S a b) -> StronglySorted R l -> StronglySorted S l.
Proof.
  intros HRS. induction 1 as [|a l _ IH Ha]; constructor; [exact IH|].
  eapply Forall_impl; [|exact Ha]. apply HRS.
Qed.

Lemma by_score_total a b : by_score a b = false -> by_score b a = true.
Proof. unfold by_score. lia. Qed.

Lemma by_score_trans a b c :
  by_score a b = true -> by_score b c = true -> by_score a c = true.
Proof. unfold by_score. lia. Qed.

(** X16.  In the text [generateDashboard] returns, [priority_projects]
    lists exactly the ideas of priority 3 or more, each once, by total
    score from high to low; [high_priority_count] is their number and
    [total_count] the number of all ideas. *)
Theorem dashboard_priority_projects_are_ranked ideas viewType :
  exists ranked,
    dashboard_member "priority_projects" ideas viewType
    = Some (JArr (map priority_project ranked))
    /\ Permutation (filter high_priority ideas) ranked
    /\ StronglySorted
         (fun a b => Store.total_score b <= Store.total_score a) ranked
    /\ sub "high_priority_count" (dashboard_member "summary" ideas viewType)
       = Some (of_Z (Z.of_nat (List.length ranked)))
    /\ sub "total_count" (dashboard_member "summary" ideas viewType)
       = Some (of_Z (Z.of_nat (List.length ideas)))
    /\ (List.length ranked <= List.length ideas)%nat.
Proof.
  exists (Store.sort_by by_score (filter high_priority ideas)).
  pose proof (sort_by_permutation by_score (filter high_priority ideas)) as Hp.
  unfold dashboard_member. rewrite generateDashboard_text.
  cbn [field assoc String.eqb Ascii.eqb Bool.eqb sub].
  repeat split.
  - exact Hp.
  - eapply sorted_weaken;
      [|apply (sort_by_sorted by_score by_score_total by_score_trans)].
    intros a b. unfold by_score. lia.
  - unfold count. now rewrite (Permutation_length Hp).
  - rewrite <- (Permutation_length Hp). apply filter_length_le.
Qed.





(** ** [setup.ts] and the database file *)

Lemma table_snoc name (f : Database.file) n t :
  Database.table name (f ++ [(n, t)])%list
  = match Database.table name f with
    | Some x => Some x
    | None => if String.eqb name n then Some t else None
    end.
Proof.
  induction f as [|[n' t'] f IH]; simpl; [reflexivity|].
  destruct (String.eqb name n'); [reflexivity|exact IH].
Qed.

Lemma table_exec_schema name f :
  Database.table name (Database.exec_schema f)
  = match Database.table name f with
    | Some x => Some x
    | None => if String.eqb name "projects" then Some Store.empty else None
    end.
Proof.
  unfold Database.exec_schema.
  destruct (Database.table "projects" f) as [t|] eqn:E.
  - destruct (Database.table name f) eqn:En; [reflexivity|].
    destruct (String.eqb_spec name "projects") as [->|_];
      [congruence|reflexivity].
  - apply table_snoc.
Qed.

Lemma table_replace_other name n t f :
  name <> n ->
  Database.table name (Database.replace n t f) = Database.table name f.
Proof.
  intros Hne. induction f as [|[n' t'] f IH]; simpl; [reflexivity|].
  destruct (String.eqb_spec n n') as [->|Hn]; simpl.
  - destruct (String.eqb_spec name n'); [contradiction|reflexivity].
  - now rewrite IH.
Qed.

Lemma table_replace_same n t f x :
  Database.table n f = Some x ->
  Database.table n (Database.replace n t f) = Some t.
Proof.
  induction f as [|[n' t'] f IH]; simpl; [discriminate|].
  destruct (String.eqb_spec n n') as [->|Hn]; simpl.
  - now rewrite String.eqb_refl.
  - destruct (String.eqb_spec n n'); [contradiction|exact IH].
Qed.

(** X19.  [setupDatabase] can be run again without effect; it leaves a
    file that holds the table [projects], keeps every table the file
    held with its contents, and on a new file creates the empty table
    [projects] and nothing else. *)
Theorem setup_is_idempotent_and_keeps_tables existing :
  Database.setupDatabase (Some (Database.setupDatabase existing))
  = Database.setupDatabase existing
  /\ (exists t,
        Database.table "projects" (Database.setupDatabase existing) = Some t)
  /\ (forall f name t,
        existing = Some f ->
        Database.table name f = Some t ->
        Database.table name (Database.setupDatabase existing) = Some t)
  /\ Database.setupDatabase None = [("projects", Store.empty)].
Proof.
  assert (forall f,
            exists t,
              Database.table "projects" (Database.exec_schema f) = Some t)
    as Hp.
  { intros f. rewrite table_exec_schema.
    destruct (Database.table "projects" f); simpl; eauto. }
  split; [|split; [apply Hp|split; [|reflexivity]]].
  - unfold Database.setupDatabase.
    destruct (Hp (match existing with Some f => f | None => [] end))
      as [t Ht].
    set (g := Database.exec_schema _) in *.
    unfold Database.exec_schema. now rewrite Ht.
  - intros f name t -> Ht. unfold Database.setupDatabase.
    now rewrite table_exec_schema, Ht.
Qed.

(** X20.  The table [setupDatabase] creates is not the one the tools
    address: on a file without a table [idea_store] (a new file among
    them), after [setupDatabase], each of the three listed tools is
    answered with the error [no such table: idea_store] and the file is
    left as it was. *)
Theorem setup_alone_serves_no_tool now request f :
  Database.table "idea_store" f = None ->
  In (name request) (map Tools.name Tools.ListTools) ->
  Database.CallToolIn now request (Database.setupDatabase (Some f))
  = (Database.setupDatabase (Some f),
     {| content := Plain "Error: SQLITE_ERROR: no such table: idea_store";
        isError := true |}).
Proof.
  intros Hf Hn. unfold Database.CallToolIn, Database.setupDatabase.
  change Store.table_name with "idea_store".
  rewrite table_exec_schema, Hf. change (String.eqb _ "projects") with false.
  cbv iota.
  rewrite listed_names in Hn.
  destruct Hn as [<-|[<-|[<-|[]]]]; reflexivity.
Qed.

Lemma setup_alone_serves_no_tool_witness :
  Database.CallToolIn "2024-05-01 09:00:00" (add_idea (idea "Atlas" "tools"))
    (Database.setupDatabase None)
  = (Database.setupDatabase None,
     {| content := Plain "Error: SQLITE_ERROR: no such table: idea_store";
        isError := true |}).
Proof.
  apply (setup_alone_serves_no_tool "2024-05-01 09:00:00"
           (add_idea (idea "Atlas" "tools")) []).
  - reflexivity.
  - simpl. left. reflexivity.
Defined.

(** X21.  On a file that holds the table [idea_store], a call is
    answered as the handler answers it on that table, the table becomes
    the one the handler leaves, and every other table of the file,
    [projects] among them, is left as it was. *)
Theorem tools_touch_idea_store_only now request f db :
  Database.table "idea_store" f = Some db ->
  snd (Database.CallToolIn now request f) = snd (CallTool now request db)
  /\ Database.table "idea_store" (fst (Database.CallToolIn now request f))
     = Some (fst (CallTool now request db))
  /\ forall other,
       other <> "idea_store" ->
       Database.table other (fst (Database.CallToolIn now request f))
       = Database.table other f.
Proof.
  intros Hf. unfold Database.CallToolIn.
  change Store.table_name with "idea_store". rewrite Hf. cbn [fst snd].
  split; [reflexivity|]. split.
  - now apply table_replace_same with (x := db).
  - intros other Hne. now apply table_replace_other.
Qed.

Lemma tools_touch_idea_store_only_witness :
  Database.table "projects"
    (fst (Database.CallToolIn "2024-05-01 09:00:00"
            (add_idea (idea "Atlas" "tools"))
            [("projects", Store.empty); ("idea_store", Store.empty)]))
  = Some Store.empty
  /\ Database.table "idea_store"
       (fst (Database.CallToolIn "2024-05-01 09:00:00"
               (add_idea (idea "Atlas" "tools"))
               [("projects", Store.empty); ("idea_store", Store.empty)]))
     = Some (one_idea "Atlas").
Proof.
  destruct (tools_touch_idea_store_only "2024-05-01 09:00:00"
              (add_idea (idea "Atlas" "tools"))
              [("projects", Store.empty); ("idea_store", Store.empty)]
              Store.empty eq_refl) as (_ & Hstore & Hother).
  split; [|exact Hstore].
  apply (Hother "projects"). discriminate.
Defined.
